(** * Mercury: the RabbitMQ connection facade

    A shallow embedding of [RabbitMQConnectionFacade] (the retry and
    acknowledgment logic, the topology set-up, the subscription helpers and
    the lifecycle) and of [RabbitMQMessageBus.configure], together with the
    properties the specification states about them.

    The broker (amqplib's connection and channel) is an external
    collaborator.  Every call the facade makes on it is recorded as an
    effect, and what the broker answers is given by a labelled transition
    system the development is parametric in.  JavaScript numbers are
    modelled by [Z], strings by [string], [undefined] by [None] (a missing
    headers table by [NoHeaders]). *)

From Stdlib Require Import ZArith String List Lia.
From stdpp Require Import base option list gmap strings.

Open Scope string_scope.
Open Scope list_scope.
Open Scope Z_scope.

(** ** JavaScript values *)

(** The run-time shapes of the argument of [subscribeAll]: the parameter is
    declared [string[]], the caller [configure] hands over a [Map]. *)
Inductive JsValue :=
| JsUndefined
| JsNull
| JsBoolean (b : bool)
| JsNumber (n : Z)
| JsString (s : string)
| JsArray (items : list string)
| JsMap (entries : list (string * string)).

(** [Array.isArray] *)
Definition isArray (v : JsValue) : bool :=
  match v with JsArray _ => true | _ => false end.

(** Truthiness of an optional number: [undefined], [0] are falsy. *)
Definition truthy_number (n : option Z) : bool :=
  match n with Some k => negb (k =? 0) | None => false end.

(** Truthiness of an optional string: [undefined], [null] and [''] are falsy. *)
Definition truthy_string (s : option string) : bool :=
  match s with Some EmptyString => false | Some _ => true | None => false end.

(** Truthiness of an optional object or array: only [undefined] is falsy. *)
Definition truthy_object {A} (o : option A) : bool :=
  match o with Some _ => true | None => false end.

(** [maxRetries ? maxRetries : 60] *)
Definition retry_limit (maxRetries : option Z) : Z :=
  if truthy_number maxRetries then default 60 maxRetries else 60.

(** ** Messages *)

(** Modelled from the spec: the [Message] interface of
    [../message/Message], of which the facade uses the four getters. *)
Record Message := mkMessage {
  getDescriptor : string;
  getSerializedContent : string;
  getUUID : string;
  getParentMessage : option string
}.

(** Modelled from the spec: [JSONMessage] of [../message/JSONMessage], the
    application message; the record holds the five constructor arguments
    (descriptor, body, identifier, timestamp, parent identifier). *)
Record JSONMessage := mkJSONMessage {
  jsonDescriptor : string;
  jsonContent : string;
  jsonUUID : string;
  jsonTimestamp : option Z;
  jsonParentMessage : option string
}.

(** One entry of the [x-death] header the broker maintains. *)
Record XDeath := mkXDeath {
  count : Z;
  deathQueue : string;
  deathReason : string
}.

(** [msg.properties.headers]: the headers table of a delivery, or
    [undefined] for a message that was published without one. *)
Inductive Headers :=
| NoHeaders
| mkHeaders (x_death : option (list XDeath)) (parentMessage : option string).

(** The entry [x-death] of a headers table.  Reading it from [undefined]
    throws: the listeners test for [NoHeaders] before they read. *)
Definition x_death (h : Headers) : option (list XDeath) :=
  match h with
  | mkHeaders history _ => history
  | NoHeaders => None
  end.

(** The entry [parentMessage] of a headers table. *)
Definition parentMessage (h : Headers) : option string :=
  match h with
  | mkHeaders _ parent => parent
  | NoHeaders => None
  end.

Record MessageProperties := mkProperties {
  appId : option string;
  messageId : option string;
  timestamp : option Z;
  headers : Headers
}.

Record MessageFields := mkFields {
  deliveryTag : Z;
  routingKey : string
}.

(** amqplib's [ConsumeMessage], a raw delivery. *)
Record ConsumeMessage := mkConsumeMessage {
  fields : MessageFields;
  content : string;
  properties : MessageProperties
}.

(** The options object [publish] builds. *)
Record PublishOptions := mkPublishOptions {
  pubParentMessage : option string;
  pubPersistent : bool;
  pubMessageId : string;
  pubTimestamp : Z;
  pubAppId : string
}.

(** ** Broker calls, effects and errors *)

Inductive BrokerOp :=
| Connect (hostname username password : string)
| CreateChannel
| AssertExchange (name kind : string) (durable autoDelete : bool)
| AssertQueue (name : string) (durable autoDelete : bool)
    (deadLetterExchange : option string) (messageTtl : option Z)
| BindExchange (destination source pattern : string)
| BindQueue (queue exchange pattern : string)
| Consume (queue : string)
| Publish (exchange routingKey body : string) (options : PublishOptions)
| Ack (message : option ConsumeMessage)
| Nack (message : ConsumeMessage) (allUpTo requeue : bool)
| CloseChannel
| CloseConnection.

(** The events of [MessageBusEventEmitter] the facade listens to. *)
Inductive EmitterEvent :=
| MESSAGE_PROCESS_ERROR
| MESSAGE_PROCESS_SUCCESS
| PROCESS_SUCCESS.

Inductive Effect :=
| Broker (op : BrokerOp)
| Listen (event : EmitterEvent)
| Emit (descriptor : string) (message : JSONMessage).

Inductive JsError :=
| TypeError (what : string)
| IllegalOperationError (what : string)
| BrokerError (code : Z).

Inductive Result (A : Type) :=
| Ok (a : A)
| Throw (e : JsError).
Arguments Ok {A} a.
Arguments Throw {A} e.

(** The broker as the facade sees it: a state and, for every call, the next
    state and the error the call raises, if any. *)
Record BrokerModel := mkBrokerModel {
  broker_state : Type;
  broker_step : broker_state -> BrokerOp -> broker_state * option JsError
}.

(** ** The facade *)

(** The read-only fields set by the constructor. *)
Record Facade := mkFacade {
  main_bus : string;
  exchange : string;
  deadLetterExchange : string;
  queue : string;
  retryQueue : string;
  appName : string;
  delayRetry : Z
}.

(** [new RabbitMQConnectionFacade(serviceName, appName, delayRetry)] *)
Definition new_facade (serviceName appName : string) (delayRetry : Z) : Facade :=
  let exchange := serviceName in
  let queue := serviceName +:+ "_queue" in
  {| main_bus := "mercury_bus";
     exchange := exchange;
     deadLetterExchange := exchange +:+ "_dlx";
     queue := queue;
     retryQueue := queue +:+ "_retry";
     appName := appName;
     delayRetry := delayRetry |}.

Inductive Connection := ConnectionHandle.
Inductive Channel := ChannelHandle.

Section Facade.

Variable B : BrokerModel.

(** [clock k] is what the [k]-th evaluation of [new Date().getTime()]
    returns. *)
Variable clock : nat -> Z.

(** The mutable part: the two handles of the facade, the in-flight table
    [messagePool] of [connect], the number of clock readings so far and the
    broker. *)
Record State := mkState {
  connection : option Connection;
  channel : option Channel;
  messagePool : gmap string ConsumeMessage;
  tick : nat;
  broker : broker_state B
}.

Definition set_connection (c : option Connection) (s : State) : State :=
  mkState c (channel s) (messagePool s) (tick s) (broker s).
Definition set_channel (c : option Channel) (s : State) : State :=
  mkState (connection s) c (messagePool s) (tick s) (broker s).
Definition set_messagePool (p : gmap string ConsumeMessage) (s : State) : State :=
  mkState (connection s) (channel s) p (tick s) (broker s).
Definition set_tick (t : nat) (s : State) : State :=
  mkState (connection s) (channel s) (messagePool s) t (broker s).
Definition set_broker (b : broker_state B) (s : State) : State :=
  mkState (connection s) (channel s) (messagePool s) (tick s) b.

(** A computation returns or throws, leaves a state and a list of effects. *)
Definition M (A : Type) : Type := State -> Result A * State * list Effect.

Definition ret {A} (a : A) : M A := fun s => (Ok a, s, []).
Definition throw {A} (e : JsError) : M A := fun s => (Throw e, s, []).
Definition bind {A C} (m : M A) (k : A -> M C) : M C :=
  fun s =>
    match m s with
    | (Ok a, s1, w1) => let '(r, s2, w2) := k a s1 in (r, s2, w1 ++ w2)
    | (Throw e, s1, w1) => (Throw e, s1, w1)
    end.

Notation "x <- m ;; k" := (bind m (fun x => k))
  (at level 63, m at next level, right associativity, only parsing).
Notation "m ;;; k" := (bind m (fun _ => k))
  (at level 63, right associativity, only parsing).

Definition result_of {A} (r : Result A * State * list Effect) : Result A := r.1.1.
Definition state_of {A} (r : Result A * State * list Effect) : State := r.1.2.
Definition effects_of {A} (r : Result A * State * list Effect) : list Effect := r.2.

Definition modify (f : State -> State) : M unit := fun s => (Ok tt, f s, []).
Definition gets {A} (f : State -> A) : M A := fun s => (Ok (f s), s, []).
Definition effect (e : Effect) : M unit := fun s => (Ok tt, s, [e]).

(** [new Date().getTime()] *)
Definition now : M Z :=
  fun s => (Ok (clock (tick s)), set_tick (S (tick s)) s, []).

(** A call on the broker: recorded, answered by the broker, and its error,
    if any, thrown (for an awaited call: the rejection). *)
Definition call (op : BrokerOp) : M unit :=
  fun s =>
    let '(b, r) := broker_step B (broker s) op in
    (match r with None => Ok tt | Some e => Throw e end, set_broker b s, [Broker op]).

(** A call whose promise is dropped: a rejection reaches nobody. *)
Definition call_detached (op : BrokerOp) : M unit :=
  fun s =>
    let '(b, _) := broker_step B (broker s) op in
    (Ok tt, set_broker b s, [Broker op]).

(** [this.channel.<op>(...)]: a property access on [undefined] when the
    channel was never created. *)
Definition on_channel (op : BrokerOp) : M unit :=
  c <- gets channel ;;
  match c with
  | None => throw (TypeError "channel")
  | Some _ => call op
  end.

(** [for (const x of xs) { body(x) }] *)
Fixpoint for_of {A} (xs : list A) (body : A -> M unit) : M unit :=
  match xs with
  | [] => ret tt
  | x :: xs' => body x ;;; for_of xs' body
  end.

(** [publish(message, alternativeExchange = null)] *)
Definition publish (f : Facade) (message : Message)
    (alternativeExchange : option string) : M unit :=
  let exchange :=
    if truthy_string alternativeExchange
    then default "" alternativeExchange
    else main_bus f in
  c <- gets channel ;;
  match c with
  | None => throw (TypeError "channel")
  | Some _ =>
      t <- now ;;
      call (Publish exchange (getDescriptor message) (getSerializedContent message)
              {| pubParentMessage := getParentMessage message;
                 pubPersistent := true;
                 pubMessageId := getUUID message;
                 pubTimestamp := t;
                 pubAppId := appName f |})
  end.

(** The listener of [MESSAGE_PROCESS_ERROR] registered by [connect].  The
    test is [!xd || (xd && xd[0].count < maxRetries)] for the [x-death]
    header [xd]: an absent header is falsy, an array is truthy even when
    empty, and reading [count] of the missing first entry of an empty array
    throws; so does reading [x-death] when the delivery has no headers
    table.  The table entry is deleted before [message] is read. *)
Definition on_process_error (f : Facade) (messageId : string)
    (maxRetries : option Z) : M unit :=
  message <- gets (fun s => messagePool s !! messageId) ;;
  modify (fun s => set_messagePool (delete messageId (messagePool s)) s) ;;;
  let maxRetries := retry_limit maxRetries in
  match message with
  | None => throw (TypeError "properties")
  | Some message =>
      match headers (properties message) with
      | NoHeaders => throw (TypeError "x-death")
      | mkHeaders None _ => on_channel (Nack message false false)
      | mkHeaders (Some []) _ => throw (TypeError "count")
      | mkHeaders (Some (death :: _)) _ =>
          if count death <? maxRetries
          then on_channel (Nack message false false)
          else on_channel (Ack (Some message))
      end
  end.

(** The listener of [MESSAGE_PROCESS_SUCCESS] registered by [connect]:
    [ack] of whatever the table holds, the publishes, then the deletion. *)
Definition on_process_success (f : Facade) (messageId : string)
    (resultingMessages : option (list Message)) : M unit :=
  message <- gets (fun s => messagePool s !! messageId) ;;
  on_channel (Ack message) ;;;
  (if truthy_object resultingMessages
   then for_of (default [] resultingMessages) (fun message => publish f message None)
   else ret tt) ;;;
  modify (fun s => set_messagePool (delete messageId (messagePool s)) s).

(** The listener of [PROCESS_SUCCESS] registered by [connect]. *)
Definition on_broadcast_success (f : Facade)
    (resultingMessages : option (list Message)) : M unit :=
  if truthy_object resultingMessages
  then for_of (default [] resultingMessages) (fun message => publish f message None)
  else ret tt.

(** [msg.properties.appId === this.appName] *)
Definition same_app (f : Facade) (msg : ConsumeMessage) : bool :=
  match appId (properties msg) with
  | Some a => String.eqb a (appName f)
  | None => false
  end.

(** The callback [connect] hands to [channel.consume].  The delivery is
    stored first; the arguments of the [JSONMessage] are read next, and
    reading [parentMessage] of a missing headers table throws before
    anything is emitted. *)
Definition on_consume (f : Facade) (msg : ConsumeMessage) : M unit :=
  if same_app f msg then
    if truthy_string (messageId (properties msg)) then
      let descriptor := routingKey (fields msg) in
      let id := default "" (messageId (properties msg)) in
      modify (fun s => set_messagePool (<[id := msg]> (messagePool s)) s) ;;;
      match headers (properties msg) with
      | NoHeaders => throw (TypeError "parentMessage")
      | mkHeaders _ parent =>
          let message :=
            mkJSONMessage descriptor (content msg) id
              (timestamp (properties msg)) parent in
          effect (Emit descriptor message)
      end
    else on_channel (Ack (Some msg))
  else on_channel (Ack (Some msg)).

(** [subscribe(descriptor)] *)
Definition subscribe (f : Facade) (descriptor : string) : M unit :=
  on_channel (BindQueue (queue f) (exchange f) descriptor).

(** [setUp()]; the [try]/[catch] around the retry queue rethrows. *)
Definition setUp (f : Facade) : M unit :=
  on_channel (AssertExchange (main_bus f) "fanout" true false) ;;;
  on_channel (AssertExchange (exchange f) "direct" true false) ;;;
  on_channel (AssertExchange (deadLetterExchange f) "fanout" true false) ;;;
  on_channel (AssertQueue (queue f) true false (Some (deadLetterExchange f)) None) ;;;
  on_channel (AssertQueue (retryQueue f) true false (Some (exchange f))
                (Some (delayRetry f * 1000))) ;;;
  on_channel (BindExchange (exchange f) (main_bus f) "") ;;;
  on_channel (BindQueue (retryQueue f) (deadLetterExchange f) "").

(** [subscribeAll(descriptors)] *)
Definition subscribeAll (f : Facade) (descriptors : JsValue) : M unit :=
  if isArray descriptors
  then for_of (match descriptors with JsArray items => items | _ => [] end)
              (subscribe f)
  else ret tt.

(** [disconnect()] *)
Definition disconnect : M unit :=
  c <- gets connection ;;
  if truthy_object c then
    on_channel CloseChannel ;;;
    call CloseConnection ;;;
    modify (set_connection None)
  else ret tt.

(** [connect(hostname, username, password)]: the promise of
    [channel.consume] is not awaited. *)
Definition connect (f : Facade) (hostname username password : string) : M unit :=
  call (Connect hostname username password) ;;;
  modify (set_connection (Some ConnectionHandle)) ;;;
  call CreateChannel ;;;
  modify (set_channel (Some ChannelHandle)) ;;;
  setUp f ;;;
  modify (set_messagePool ∅) ;;;
  effect (Listen MESSAGE_PROCESS_ERROR) ;;;
  effect (Listen MESSAGE_PROCESS_SUCCESS) ;;;
  effect (Listen PROCESS_SUCCESS) ;;;
  c <- gets channel ;;
  match c with
  | None => throw (TypeError "channel")
  | Some _ => call_detached (Consume (queue f))
  end.

End Facade.

Arguments connection {B} s.
Arguments channel {B} s.
Arguments messagePool {B} s.
Arguments tick {B} s.
Arguments broker {B} s.
Arguments mkState {B}.
Arguments ret {B A} a s.
Arguments throw {B A} e s.
Arguments bind {B A C} m k s.
Arguments result_of {B A} r.
Arguments state_of {B A} r.
Arguments effects_of {B A} r.
Arguments for_of {B A} xs body.

(** ** The message bus *)

(** The options [configure] reads from its argument. *)
Record OptionsMap := mkOptionsMap {
  brokerHostName : string;
  brokerUserName : string;
  brokerPassword : string;
  optAppName : string;
  serviceName : string;
  retryDelay : Z;
  filterMessages : bool
}.

(** [RabbitMQMessageBus.configure(args)]; [messageBindings] is what
    [Reflect.getMetadata('messageBindings', Mercury)] returns.  The facade is
    a new object, so its handles start undefined; the constructor ignores
    the fourth argument. *)
Definition configure (B : BrokerModel) (args : OptionsMap)
    (messageBindings : JsValue) : M B bool :=
  let connectionFacade :=
    new_facade (serviceName args) (optAppName args) (retryDelay args) in
  bind (modify B (fun s => set_channel B None (set_connection B None s))) (fun _ =>
  bind (connect B connectionFacade (brokerHostName args) (brokerUserName args)
          (brokerPassword args)) (fun _ =>
  bind (subscribeAll B connectionFacade messageBindings) (fun _ =>
  ret true))).

(** ** Two brokers *)

(** A broker that accepts every call. *)
Definition obliging : BrokerModel :=
  {| broker_state := unit; broker_step := fun b _ => (b, None) |}.

Record AmqpState := mkAmqpState {
  connection_open : bool;
  channel_open : bool
}.

(** amqplib: a call on a closed channel or connection fails with
    [IllegalOperationError], and so does closing one a second time. *)
Definition amqp_step (b : AmqpState) (op : BrokerOp) : AmqpState * option JsError :=
  match op with
  | Connect _ _ _ => (mkAmqpState true false, None)
  | CreateChannel =>
      if connection_open b then (mkAmqpState true true, None)
      else (b, Some (IllegalOperationError "Connection closed"))
  | CloseConnection =>
      if connection_open b then (mkAmqpState false false, None)
      else (b, Some (IllegalOperationError "Connection closed"))
  | CloseChannel =>
      if channel_open b then (mkAmqpState (connection_open b) false, None)
      else (b, Some (IllegalOperationError "Channel closed"))
  | Ack None => (b, Some (TypeError "fields"))
  | _ =>
      if channel_open b then (b, None)
      else (b, Some (IllegalOperationError "Channel closed"))
  end.

Definition amqp : BrokerModel :=
  {| broker_state := AmqpState; broker_step := amqp_step |}.

(** A broker that refuses to open a channel and accepts everything else. *)
Definition channel_refused : BrokerModel :=
  {| broker_state := unit;
     broker_step := fun b op =>
       match op with
       | CreateChannel => (b, Some (BrokerError 504))
       | _ => (b, None)
       end |}.

(** ** Reading effects *)

(** The deliveries acknowledged, in order. *)
Definition acks_of (w : list Effect) : list (option ConsumeMessage) :=
  flat_map (fun e => match e with Broker (Ack m) => [m] | _ => [] end) w.

(** The deliveries rejected, in order. *)
Definition nacks_of (w : list Effect) : list ConsumeMessage :=
  flat_map (fun e => match e with Broker (Nack m _ _) => [m] | _ => [] end) w.

(** The publish calls, in order. *)
Definition publications_of (w : list Effect) : list (string * string * string * PublishOptions) :=
  flat_map (fun e => match e with
                     | Broker (Publish ex rk body o) => [(ex, rk, body, o)]
                     | _ => []
                     end) w.

(** The call [publish(message)] makes when the clock reads [t]: on the
    broadcast exchange, persistent, stamped with the identity of the
    application. *)
Definition broadcast_call (f : Facade) (message : Message) (t : Z) : BrokerOp :=
  Publish (main_bus f) (getDescriptor message) (getSerializedContent message)
    {| pubParentMessage := getParentMessage message;
       pubPersistent := true;
       pubMessageId := getUUID message;
       pubTimestamp := t;
       pubAppId := appName f |}.

(** The redelivery count as the specification defines it: the count of the
    first entry of the dead-letter history, and 0 without history. *)
Definition redelivery_count (m : ConsumeMessage) : Z :=
  match x_death (headers (properties m)) with
  | Some (death :: _) => count death
  | _ => 0
  end.

(** The delivery has a headers table, and the history in it is absent or
    has an entry. *)
Definition history_readable (m : ConsumeMessage) : bool :=
  match headers (properties m) with
  | NoHeaders => false
  | mkHeaders (Some []) _ => false
  | mkHeaders _ _ => true
  end.

(** A broker that rejects no call. *)
Definition accepts_all (B : BrokerModel) : Prop :=
  forall b op, (broker_step B b op).2 = None.

(** What the broker hands to a consumer for a published message: AMQP
    carries the routing key, the body, the properties and the headers
    unchanged; the broker supplies the delivery tag and, once the message
    was dead-lettered, the history. *)
Definition delivery_of (op : BrokerOp) (tag : Z)
    (history : option (list XDeath)) : option ConsumeMessage :=
  match op with
  | Publish _ rk body o =>
      Some {| fields := {| deliveryTag := tag; routingKey := rk |};
              content := body;
              properties :=
                {| appId := Some (pubAppId o);
                   messageId := Some (pubMessageId o);
                   timestamp := Some (pubTimestamp o);
                   headers := mkHeaders history (pubParentMessage o) |} |}
  | _ => None
  end.

(** ** Reading the order of the set-up *)

Definition is_exchange_declaration (op : BrokerOp) : bool :=
  match op with AssertExchange _ _ _ _ => true | _ => false end.

Definition is_queue_declaration (op : BrokerOp) : bool :=
  match op with AssertQueue _ _ _ _ _ => true | _ => false end.

Definition is_binding (op : BrokerOp) : bool :=
  match op with BindExchange _ _ _ | BindQueue _ _ _ => true | _ => false end.

Definition declares_exchange (name : string) (op : BrokerOp) : bool :=
  match op with AssertExchange n _ _ _ => String.eqb n name | _ => false end.

Definition declares_queue (name : string) (op : BrokerOp) : bool :=
  match op with AssertQueue n _ _ _ _ => String.eqb n name | _ => false end.

(** Every call satisfying [P] comes before every call satisfying [Q]. *)
Definition precedes (P Q : BrokerOp -> bool) (w : list Effect) : Prop :=
  forall (i j : nat) (a b : BrokerOp),
    w !! i = Some (Broker a) -> w !! j = Some (Broker b) ->
    P a = true -> Q b = true -> (i < j)%nat.

(** The calls of [setUp], in the order of the source. *)
Definition topology_calls (f : Facade) : list BrokerOp :=
  [ AssertExchange (main_bus f) "fanout" true false;
    AssertExchange (exchange f) "direct" true false;
    AssertExchange (deadLetterExchange f) "fanout" true false;
    AssertQueue (queue f) true false (Some (deadLetterExchange f)) None;
    AssertQueue (retryQueue f) true false (Some (exchange f))
      (Some (delayRetry f * 1000));
    BindExchange (exchange f) (main_bus f) "";
    BindQueue (retryQueue f) (deadLetterExchange f) "" ].

(** A binding of the primary queue to the service exchange under a topic,
    as [subscribe] makes it. *)
Definition is_topic_binding (f : Facade) (e : Effect) : Prop :=
  exists topic, e = Broker (BindQueue (queue f) (exchange f) topic).

(** [x-message-ttl] is in milliseconds. *)
Definition ttl_seconds (milliseconds : Z) : Z := milliseconds / 1000.

(** ** Sample data *)

Definition orders : Facade := new_facade "orders" "shop" 5.

Definition wall_clock (k : nat) : Z := 1700000000000 + Z.of_nat k.

(** A delivery of the application [shop] with identifier [id] and the given
    dead-letter history. *)
Definition delivery (id : string) (history : option (list XDeath)) : ConsumeMessage :=
  {| fields := {| deliveryTag := 1; routingKey := "order.created" |};
     content := "{}";
     properties := {| appId := Some "shop";
                      messageId := Some id;
                      timestamp := Some 1700000000000;
                      headers := mkHeaders history (Some "root") |} |}.

Definition died (n : Z) : option (list XDeath) :=
  Some [ {| count := n; deathQueue := "orders_queue"; deathReason := "rejected" |} ].

(** A connected facade with the given in-flight table. *)
Definition consuming (B : BrokerModel) (b : broker_state B)
    (pool : gmap string ConsumeMessage) : State B :=
  mkState (Some ConnectionHandle) (Some ChannelHandle) pool 0%nat b.

(** A connected facade on the obliging broker tracking the one delivery
    [m] under the identifier [m1]. *)
Definition tracking (m : ConsumeMessage) : State obliging :=
  consuming obliging tt {[ "m1" := m ]}.

(** A delivery that fails for the first time: no history yet. *)
Definition first_failure : ConsumeMessage := delivery "m1" None.

(** A connected facade whose channel the broker has closed; the connection
    is alive. *)
Definition channel_lost : State amqp :=
  consuming amqp {| connection_open := true; channel_open := false |} ∅.

(** A facade that was never connected. *)
Definition unconnected (B : BrokerModel) (b : broker_state B) : State B :=
  mkState None None ∅ 0%nat b.

(** A connected facade with both resources open. *)
Definition connected : State amqp :=
  consuming amqp {| connection_open := true; channel_open := true |} ∅.

Definition invoice : Message :=
  {| getDescriptor := "invoice.requested"; getSerializedContent := "{}";
     getUUID := "m2"; getParentMessage := Some "m1" |}.

Definition shipment : Message :=
  {| getDescriptor := "shipment.requested"; getSerializedContent := "{}";
     getUUID := "m3"; getParentMessage := Some "m1" |}.

Definition shop_options : OptionsMap :=
  {| brokerHostName := "localhost"; brokerUserName := "guest";
     brokerPassword := "guest"; optAppName := "shop"; serviceName := "orders";
     retryDelay := 5; filterMessages := false |}.

(** ** Reading whole runs *)

(** The call [publish] makes on [exchange] when the clock reads [t]. *)
Definition publish_call (exchange : string) (f : Facade) (message : Message)
    (t : Z) : BrokerOp :=
  Publish exchange (getDescriptor message) (getSerializedContent message)
    {| pubParentMessage := getParentMessage message;
       pubPersistent := true;
       pubMessageId := getUUID message;
       pubTimestamp := t;
       pubAppId := appName f |}.

(** The calls of [connect] up to the end of [setUp]. *)
Definition provisioning_calls (f : Facade) (hostname username password : string)
    : list Effect :=
  Broker (Connect hostname username password) :: Broker CreateChannel ::
  map Broker (topology_calls f).

(** Everything a [connect] does that runs to its end: the provisioning, the
    three listeners, the consumer on the primary queue. *)
Definition connect_calls (f : Facade) (hostname username password : string)
    : list Effect :=
  provisioning_calls f hostname username password ++
  [ Listen MESSAGE_PROCESS_ERROR; Listen MESSAGE_PROCESS_SUCCESS;
    Listen PROCESS_SUCCESS; Broker (Consume (queue f)) ].

(** A listener registration or the start of the consumer. *)
Definition starts_consumption (e : Effect) : bool :=
  match e with
  | Listen _ | Broker (Consume _) => true
  | _ => false
  end.

(** The binding [subscribe] makes for a topic. *)
Definition topic_binding (f : Facade) (topic : string) : Effect :=
  Broker (BindQueue (queue f) (exchange f) topic).

(** ** More sample data *)

(** A broker that accepts everything but [publish]. *)
Definition publish_refused : BrokerModel :=
  {| broker_state := unit;
     broker_step := fun b op =>
       match op with
       | Publish _ _ _ _ => (b, Some (BrokerError 311))
       | _ => (b, None)
       end |}.

(** A second delivery under the identifier [m1], with another body. *)
Definition redelivery : ConsumeMessage :=
  {| fields := {| deliveryTag := 2; routingKey := "order.created" |};
     content := "{2}";
     properties := {| appId := Some "shop";
                      messageId := Some "m1";
                      timestamp := Some 1700000000500;
                      headers := mkHeaders None (Some "root") |} |}.

(** A delivery of [shop] under the identifier [m1] that was published
    without a headers table. *)
Definition headerless : ConsumeMessage :=
  {| fields := {| deliveryTag := 3; routingKey := "order.created" |};
     content := "{}";
     properties := {| appId := Some "shop";
                      messageId := Some "m1";
                      timestamp := Some 1700000000000;
                      headers := NoHeaders |} |}.

(** ** Basic facts about calls *)

Lemma obliging_accepts_all : accepts_all obliging.
Proof. intros b op. reflexivity. Qed.

Section Calls.

Variable B : BrokerModel.

Lemma bind_effects {A C} (m : M B A) (k : A -> M B C) (s : State B) :
  effects_of (bind m k s) =
  effects_of (m s) ++
  match result_of (m s) with
  | Ok a => effects_of (k a (state_of (m s)))
  | Throw _ => []
  end.
Proof.
  unfold bind, effects_of, result_of, state_of.
  destruct (m s) as [[[a|e] s1] w1]; simpl.
  - destruct (k a s1) as [[r s2] w2]. reflexivity.
  - rewrite app_nil_r. reflexivity.
Qed.

Lemma bind_ok {A C} (m : M B A) (k : A -> M B C) (s s1 : State B) (a : A)
    (w1 : list Effect) :
  m s = (Ok a, s1, w1) ->
  bind m k s = (result_of (k a s1), state_of (k a s1), w1 ++ effects_of (k a s1)).
Proof. intros Hm. unfold bind. rewrite Hm. destruct (k a s1) as [[r s2] w2]. reflexivity. Qed.

Lemma bind_throw {A C} (m : M B A) (k : A -> M B C) (s s1 : State B) (e : JsError)
    (w1 : list Effect) :
  m s = (Throw e, s1, w1) -> bind m k s = (Throw e, s1, w1).
Proof. intros Hm. unfold bind. rewrite Hm. reflexivity. Qed.

Lemma call_effects (op : BrokerOp) (s : State B) :
  effects_of (call B op s) = [Broker op].
Proof. unfold call. destruct (broker_step B (broker s) op). reflexivity. Qed.

Lemma call_keeps (op : BrokerOp) (s : State B) :
  let s' := state_of (call B op s) in
  connection s' = connection s /\ channel s' = channel s /\
  messagePool s' = messagePool s /\ tick s' = tick s.
Proof. unfold call. destruct (broker_step B (broker s) op). simpl. auto. Qed.

Lemma call_accepted (op : BrokerOp) (s : State B) :
  accepts_all B ->
  call B op s = (Ok tt, set_broker B (broker_step B (broker s) op).1 s, [Broker op]).
Proof.
  intros Hacc. unfold call. specialize (Hacc (broker s) op).
  destruct (broker_step B (broker s) op) as [b r]. simpl in *. subst r. reflexivity.
Qed.

Lemma on_channel_open (op : BrokerOp) (s : State B) :
  channel s <> None -> on_channel B op s = call B op s.
Proof.
  intros Hc. unfold on_channel, bind, gets.
  destruct (channel s) as [c|]; [|congruence].
  destruct (call B op s) as [[r s'] w]. reflexivity.
Qed.

Lemma on_channel_undefined (op : BrokerOp) (s : State B) :
  channel s = None -> on_channel B op s = (Throw (TypeError "channel"), s, []).
Proof. intros Hc. unfold on_channel, bind, gets. rewrite Hc. reflexivity. Qed.

End Calls.

(** ** The outcome resolver *)

Section Resolver.

Variable B : BrokerModel.

Lemma on_process_error_tracked (f : Facade) (id : string) (maxRetries : option Z)
    (s : State B) (m : ConsumeMessage) :
  messagePool s !! id = Some m ->
  channel s <> None ->
  history_readable m = true ->
  let r := on_process_error B f id maxRetries s in
  messagePool (state_of r) = delete id (messagePool s) /\
  effects_of r =
    [Broker (if negb (truthy_object (x_death (headers (properties m))))
                || (redelivery_count m <? retry_limit maxRetries)
             then Nack m false false else Ack (Some m))].
Proof.
  intros Hm Hc Hh. unfold on_process_error, bind, gets, modify. rewrite Hm.
  unfold history_readable, redelivery_count in *.
  set (s1 := set_messagePool B (delete id (messagePool s)) s).
  assert (Hc1 : channel s1 <> None) by exact Hc.
  destruct (headers (properties m)) as [|[[|death deaths]|] parent];
    try discriminate; simpl.
  - destruct (count death <? retry_limit maxRetries); simpl;
      rewrite (on_channel_open B _ s1 Hc1);
      match goal with |- context [call B ?op s1] =>
        pose proof (call_effects B op s1) as He;
        pose proof (call_keeps B op s1) as (_ & _ & Hp & _);
        destruct (call B op s1) as [[r s2] w] end;
      simpl in *; subst w; rewrite Hp; auto.
  - simpl. rewrite (on_channel_open B _ s1 Hc1).
    match goal with |- context [call B ?op s1] =>
      pose proof (call_effects B op s1) as He;
      pose proof (call_keeps B op s1) as (_ & _ & Hp & _);
      destruct (call B op s1) as [[r s2] w] end.
    simpl in *; subst w; rewrite Hp; auto.
Qed.

Lemma retry_limit_cases (maxRetries : option Z) :
  retry_limit None = 60 /\ retry_limit (Some 0) = 60 /\
  (forall n, n <> 0 -> retry_limit (Some n) = n).
Proof.
  repeat split. intros n Hn. unfold retry_limit, truthy_number.
  destruct (Z.eqb_spec n 0); [contradiction | reflexivity].
Qed.

(** C1, as the code has it: an error outcome for a tracked delivery with a
    headers table whose dead-letter history is absent or has an entry
    removes the delivery from the in-flight table and issues one call,
    [nack(message, false, false)] or [ack(message)].  The limit is [maxRetries] when it is truthy and 60
    otherwise.  The delivery is rejected exactly when the history is absent
    or the count of its first entry is below the limit, and acknowledged
    exactly when there is a history whose count has reached the limit.  For
    every positive limit this is the comparison [count < limit] on the count
    found in the delivery, 0 without history; with the default limit the
    counts 0 to 59 are rejected for a retry and the count 60 is
    acknowledged. *)
Theorem error_outcome_decision (f : Facade) (id : string) (maxRetries : option Z)
    (s : State B) (m : ConsumeMessage) :
  messagePool s !! id = Some m ->
  channel s <> None ->
  history_readable m = true ->
  let r := on_process_error B f id maxRetries s in
  let limit := retry_limit maxRetries in
  let retried := effects_of r = [Broker (Nack m false false)] in
  let dropped := effects_of r = [Broker (Ack (Some m))] in
  (retry_limit None = 60 /\ retry_limit (Some 0) = 60 /\
   (forall n, n <> 0 -> retry_limit (Some n) = n)) /\
  messagePool (state_of r) = delete id (messagePool s) /\
  (retried \/ dropped) /\
  (retried <->
     x_death (headers (properties m)) = None \/ redelivery_count m < limit) /\
  (dropped <->
     x_death (headers (properties m)) <> None /\ limit <= redelivery_count m) /\
  (0 < limit ->
     (retried <-> redelivery_count m < limit) /\
     (dropped <-> limit <= redelivery_count m)) /\
  (maxRetries = None -> 0 <= redelivery_count m <= 59 -> retried) /\
  (maxRetries = None -> redelivery_count m = 60 -> dropped).
Proof.
  intros Hm Hc Hh r limit retried dropped.
  destruct (on_process_error_tracked f id maxRetries s m Hm Hc Hh) as [Hpool Heff].
  fold r in Hpool, Heff. fold limit in Heff.
  split; [exact (retry_limit_cases maxRetries)|].
  split; [exact Hpool|].
  assert (Hcount : x_death (headers (properties m)) = None -> redelivery_count m = 0).
  { unfold redelivery_count. intros ->. reflexivity. }
  assert (Hexcl : retried -> dropped -> False).
  { unfold retried, dropped. intros ->. discriminate. }
  assert (Hdec : (retried /\ (x_death (headers (properties m)) = None \/
                               redelivery_count m < limit)) \/
                 (dropped /\ x_death (headers (properties m)) <> None /\
                              limit <= redelivery_count m)).
  { unfold retried, dropped. rewrite Heff.
    destruct (x_death (headers (properties m))) as [h|]; simpl; [|left; auto].
    destruct (Z.ltb_spec (redelivery_count m) limit); [left | right];
      repeat split; auto; discriminate. }
  assert (Hdefault : maxRetries = None -> limit = 60).
  { intros ->. reflexivity. }
  clearbody retried dropped limit. clear Heff Hpool.
  destruct Hdec as [[Hr [Hn|Hlt]] | (Hd & Hx & Hge)];
    try (specialize (Hcount Hn));
    repeat split; intros;
    repeat match goal with
           | H : _ /\ _ |- _ => destruct H
           | H : _ \/ _ |- _ => destruct H
           | H : maxRetries = None |- _ => specialize (Hdefault H); clear H
           end;
    try assumption; try contradiction; try (exfalso; auto; fail);
    try (left; assumption); try (right; assumption); try lia.
Qed.

(** C2, what the code does for an identifier that is not tracked: the
    error listener reads [message.properties] of [undefined] and throws a
    [TypeError] without calling the broker, and the success listener calls
    [ack(undefined)] first. *)
Theorem unknown_delivery_outcome (f : Facade) (id : string) (maxRetries : option Z)
    (resultingMessages : option (list Message)) (clock : nat -> Z) (s : State B) :
  messagePool s !! id = None ->
  channel s <> None ->
  result_of (on_process_error B f id maxRetries s) = Throw (TypeError "properties") /\
  effects_of (on_process_error B f id maxRetries s) = [] /\
  exists w, effects_of (on_process_success B clock f id resultingMessages s)
            = Broker (Ack None) :: w.
Proof.
  intros Hm Hc. split; [|split].
  - unfold on_process_error, bind, gets, modify. rewrite Hm. reflexivity.
  - unfold on_process_error, bind, gets, modify. rewrite Hm. reflexivity.
  - unfold on_process_success. rewrite bind_effects. unfold gets at 1 2 3. simpl.
    rewrite Hm, bind_effects, (on_channel_open B _ s Hc), call_effects.
    simpl. eauto.
Qed.

End Resolver.

(** ** The outbound publisher and the success outcome *)

Section Publisher.

Variable B : BrokerModel.
Variable clock : nat -> Z.
Hypothesis accepted : accepts_all B.

Lemma publish_accepted (f : Facade) (message : Message) (s : State B) :
  channel s <> None ->
  exists b,
    publish B clock f message None s =
    (Ok tt, set_broker B b (set_tick B (S (tick s)) s),
     [Broker (broadcast_call f message (clock (tick s)))]).
Proof.
  intros Hc. unfold publish, bind, gets, now. simpl.
  destruct (channel s) as [c|]; [|congruence].
  rewrite call_accepted by exact accepted. simpl. eauto.
Qed.

Lemma for_of_publish_accepted (f : Facade) (messages : list Message) :
  forall s : State B,
    channel s <> None ->
    let r := for_of messages (fun message => publish B clock f message None) s in
    result_of r = Ok tt /\
    effects_of r =
      imap (fun k message => Broker (broadcast_call f message (clock (tick s + k)%nat)))
           messages /\
    tick (state_of r) = (tick s + length messages)%nat /\
    channel (state_of r) = channel s /\
    connection (state_of r) = connection s /\
    messagePool (state_of r) = messagePool s.
Proof.
  induction messages as [|message messages IH]; intros s Hc; simpl.
  - repeat split. unfold state_of, ret. simpl. lia.
  - destruct (publish_accepted f message s Hc) as [b Hp].
    rewrite (bind_ok B _ _ _ _ _ _ Hp).
    set (s1 := set_broker B b (set_tick B (S (tick s)) s)).
    destruct (IH s1 Hc) as (Hr & He & Ht & Hch & Hco & Hpo).
    unfold result_of, state_of, effects_of in *. simpl.
    rewrite Hr, He, Ht, Hch, Hco, Hpo. simpl.
    repeat split; try lia.
    rewrite Nat.add_0_r. f_equal.
    apply imap_ext. intros k x _. simpl. rewrite Nat.add_succ_r. reflexivity.
Qed.

Lemma broadcasts_read (f : Facade) (messages : list Message) :
  forall t : nat -> Z,
    let w := imap (fun k message => Broker (broadcast_call f message (t k))) messages in
    acks_of w = [] /\ nacks_of w = [] /\
    length (publications_of w) = length messages.
Proof.
  induction messages as [|message messages IH]; intros t; simpl.
  - auto.
  - destruct (IH (t ∘ S)) as (Ha & Hn & Hp). repeat split; auto.
Qed.

(** C4: with a broker that accepts the calls, a success outcome for a
    tracked delivery returns normally, removes the delivery from the
    in-flight table, and issues [ack] for that delivery followed by one
    [publish] per resulting message, in order, on the broadcast exchange;
    the [k]-th publish carries the reading the clock gives at that call and
    the identity of the application.  There is one acknowledgment, no
    rejection and as many publish calls as resulting messages, and the
    identifier is no longer in the table afterwards. *)
Theorem success_outcome_publishes (f : Facade) (id : string)
    (resultingMessages : option (list Message)) (s : State B) (m : ConsumeMessage) :
  messagePool s !! id = Some m ->
  channel s <> None ->
  let r := on_process_success B clock f id resultingMessages s in
  let messages := default [] resultingMessages in
  result_of r = Ok tt /\
  messagePool (state_of r) = delete id (messagePool s) /\
  messagePool (state_of r) !! id = None /\
  effects_of r =
    Broker (Ack (Some m)) ::
    imap (fun k message => Broker (broadcast_call f message (clock (tick s + k)%nat)))
         messages /\
  acks_of (effects_of r) = [Some m] /\
  nacks_of (effects_of r) = [] /\
  length (publications_of (effects_of r)) = length messages /\
  forall ex rk body o, In (ex, rk, body, o) (publications_of (effects_of r)) ->
    pubAppId o = appName f /\ pubPersistent o = true /\
    exists k, (k < length messages)%nat /\ pubTimestamp o = clock (tick s + k)%nat.
Proof.
  intros Hm Hc r messages.
  assert (Hr : exists s', r = (Ok tt, s',
                    Broker (Ack (Some m)) ::
                    imap (fun k message =>
                            Broker (broadcast_call f message (clock (tick s + k)%nat)))
                         messages) /\
               messagePool s' = delete id (messagePool s)).
  { subst r. unfold on_process_success.
    assert (Hget : gets B (fun s0 : State B => messagePool s0 !! id) s = (Ok (Some m), s, [])).
    { unfold gets. rewrite Hm. reflexivity. }
    rewrite (bind_ok B _ _ _ _ _ _ Hget).
    rewrite (bind_ok B _ _ s _ tt [Broker (Ack (Some m))]
               (eq_trans (on_channel_open B _ s Hc) (call_accepted B _ s accepted))).
    set (s1 := set_broker B _ s).
    assert (Hloop :
      (if truthy_object resultingMessages
       then for_of (default [] resultingMessages)
              (fun message => publish B clock f message None)
       else ret tt) = for_of messages (fun message => publish B clock f message None)).
    { subst messages. destruct resultingMessages; reflexivity. }
    rewrite Hloop.
    destruct (for_of_publish_accepted f messages s1 Hc) as (Hres & Heff & _ & _ & _ & Hpool).
    unfold result_of, state_of, effects_of in Hres, Heff, Hpool.
    destruct (for_of messages _ s1) as [[r2 s2] w2] eqn:Hfor. simpl in *. subst r2 w2.
    rewrite (bind_ok B _ _ _ _ _ _ Hfor).
    unfold modify, result_of, state_of, effects_of. simpl.
    rewrite app_nil_r, Hpool. eauto. }
  destruct Hr as (s' & Hr & Hpool). rewrite Hr.
  unfold result_of, state_of, effects_of. simpl.
  destruct (broadcasts_read f messages (fun k => clock (tick s + k)%nat)) as (Ha & Hn & Hp).
  simpl in Ha, Hn, Hp.
  split; [reflexivity|]. split; [exact Hpool|].
  split; [rewrite Hpool; apply lookup_delete_eq|].
  split; [reflexivity|].
  split; [unfold acks_of in *; rewrite Ha; reflexivity|].
  split; [exact Hn|]. split; [exact Hp|].
  clear. intros ex rk body o Hin. revert Hin.
  generalize (tick s) as t0. induction messages as [|message messages IH]; intros t0 Hin.
  - destruct Hin.
  - simpl in Hin. destruct Hin as [Heq|Hin].
    + inversion Heq; subst. simpl. repeat split. exists 0%nat. split; [lia|reflexivity].
    + assert (Hin' : In (ex, rk, body, o)
               (publications_of
                  (imap (fun k message =>
                           Broker (broadcast_call f message (clock (S t0 + k)%nat)))
                        messages))).
      { erewrite imap_ext; [exact Hin|]. intros k x _. simpl.
        rewrite Nat.add_succ_r. reflexivity. }
      destruct (IH (S t0) Hin') as (Happ & Hper & k & Hk & Ht).
      repeat split; auto. exists (S k). split; [simpl; lia|].
      rewrite Ht. f_equal. lia.
Qed.

End Publisher.

(** ** The inbound dispatcher *)

Section Dispatcher.

Variable B : BrokerModel.
Variable clock : nat -> Z.

Lemma same_app_spec (f : Facade) (msg : ConsumeMessage) :
  same_app f msg = true <-> appId (properties msg) = Some (appName f).
Proof.
  unfold same_app. destruct (appId (properties msg)) as [a|].
  - rewrite String.eqb_eq. split; congruence.
  - split; discriminate.
Qed.

Lemma truthy_string_spec (o : option string) :
  truthy_string o = true <-> exists id, o = Some id /\ id <> "".
Proof.
  destruct o as [[|c id]|]; simpl; split;
    solve [ discriminate | eauto | intros (? & ? & ?); congruence ].
Qed.

Lemma on_channel_effects (op : BrokerOp) (s : State B) :
  effects_of (on_channel B op s) = [] \/ effects_of (on_channel B op s) = [Broker op].
Proof.
  destruct (channel s) as [c|] eqn:Hc.
  - right. rewrite on_channel_open by congruence. apply call_effects.
  - left. rewrite on_channel_undefined by exact Hc. reflexivity.
Qed.

Lemma on_consume_untracked (f : Facade) (msg : ConsumeMessage) (s : State B) :
  same_app f msg && truthy_string (messageId (properties msg)) = false ->
  on_consume B f msg s = on_channel B (Ack (Some msg)) s.
Proof.
  unfold on_consume. intros H.
  destruct (same_app f msg); [|reflexivity].
  destruct (truthy_string (messageId (properties msg))); [discriminate|reflexivity].
Qed.

(** A delivery of this application with an identifier is stored, whether
    or not it has a headers table; without one the callback throws after
    the store and emits nothing. *)
Lemma on_consume_stored (f : Facade) (msg : ConsumeMessage) (id : string) (s : State B) :
  appId (properties msg) = Some (appName f) ->
  messageId (properties msg) = Some id ->
  id <> "" ->
  state_of (on_consume B f msg s)
    = set_messagePool B (<[id := msg]> (messagePool s)) s /\
  (headers (properties msg) = NoHeaders ->
   result_of (on_consume B f msg s) = Throw (TypeError "parentMessage") /\
   effects_of (on_consume B f msg s) = []) /\
  (headers (properties msg) <> NoHeaders ->
   result_of (on_consume B f msg s) = Ok tt /\
   effects_of (on_consume B f msg s) =
     [Emit (routingKey (fields msg))
           (mkJSONMessage (routingKey (fields msg)) (content msg) id
              (timestamp (properties msg))
              (parentMessage (headers (properties msg))))]).
Proof.
  intros Happ Hid Hne. unfold on_consume.
  rewrite (proj2 (same_app_spec f msg) Happ).
  rewrite (proj2 (truthy_string_spec _) (ex_intro _ id (conj Hid Hne))).
  rewrite Hid. unfold bind, modify, effect, throw. simpl.
  destruct (headers (properties msg)) as [|history parent]; simpl;
    repeat split; intros; congruence.
Qed.

Lemma on_consume_stored_quiet (f : Facade) (msg : ConsumeMessage) (id : string)
    (s : State B) :
  appId (properties msg) = Some (appName f) ->
  messageId (properties msg) = Some id ->
  id <> "" ->
  acks_of (effects_of (on_consume B f msg s)) = [].
Proof.
  intros Happ Hid Hne.
  destruct (on_consume_stored f msg id s Happ Hid Hne) as (_ & Hnone & Hsome).
  destruct (headers (properties msg)) as [|history parent] eqn:Hh.
  - destruct (Hnone eq_refl) as [_ He]. rewrite He. reflexivity.
  - destruct Hsome as [_ He]; [discriminate|]. rewrite He. reflexivity.
Qed.

Lemma on_consume_tracked (f : Facade) (msg : ConsumeMessage) (id : string) (s : State B) :
  appId (properties msg) = Some (appName f) ->
  messageId (properties msg) = Some id ->
  id <> "" ->
  headers (properties msg) <> NoHeaders ->
  on_consume B f msg s =
  (Ok tt, set_messagePool B (<[id := msg]> (messagePool s)) s,
   [Emit (routingKey (fields msg))
         (mkJSONMessage (routingKey (fields msg)) (content msg) id
            (timestamp (properties msg))
            (parentMessage (headers (properties msg))))]).
Proof.
  intros Happ Hid Hne Hh.
  destruct (on_consume_stored f msg id s Happ Hid Hne) as (Hs & _ & Hok).
  destruct (Hok Hh) as [Hr He].
  unfold result_of, state_of, effects_of in *.
  destruct (on_consume B f msg s) as [[r s'] w]. simpl in *. congruence.
Qed.

(** C3, what the code does: a delivery whose application tag differs from
    the identity of the application, or that carries no message identifier
    (none at all, or the empty one, which JavaScript takes for absent), is
    acknowledged at once and the in-flight table is left as it was.  A
    delivery of this application with an identifier is stored in the table
    under that identifier and nothing is acknowledged.  When it has a
    headers table, one application message built from its routing key,
    body, identifier, timestamp and parent header is emitted under the
    routing key.  When it has none, the callback throws a [TypeError] on
    reading the parent header, after the store: nothing is emitted, and the
    delivery stays in the table with nobody to signal its outcome. *)
Theorem consume_dispatch (f : Facade) (msg : ConsumeMessage) (s : State B) :
  let r := on_consume B f msg s in
  (appId (properties msg) <> Some (appName f) \/
   messageId (properties msg) = None \/
   messageId (properties msg) = Some "" ->
   channel s <> None ->
   effects_of r = [Broker (Ack (Some msg))] /\
   messagePool (state_of r) = messagePool s) /\
  (forall id,
     appId (properties msg) = Some (appName f) ->
     messageId (properties msg) = Some id ->
     id <> "" ->
     messagePool (state_of r) = <[id := msg]> (messagePool s) /\
     messagePool (state_of r) !! id = Some msg /\
     acks_of (effects_of r) = [] /\
     (headers (properties msg) <> NoHeaders ->
      result_of r = Ok tt /\
      effects_of r =
        [Emit (routingKey (fields msg))
              (mkJSONMessage (routingKey (fields msg)) (content msg) id
                 (timestamp (properties msg))
                 (parentMessage (headers (properties msg))))]) /\
     (headers (properties msg) = NoHeaders ->
      result_of r = Throw (TypeError "parentMessage") /\
      effects_of r = [])).
Proof.
  intros r. subst r. split.
  - intros Hcase Hc.
    rewrite on_consume_untracked, (on_channel_open B _ s Hc).
    + split; [apply call_effects | apply call_keeps].
    + apply andb_false_iff.
      destruct (same_app f msg) eqn:Happ; [right | left; reflexivity].
      apply same_app_spec in Happ.
      destruct Hcase as [Hne | [Hnone | Hempty]];
        [contradiction | rewrite Hnone | rewrite Hempty]; reflexivity.
  - intros id Happ Hid Hne.
    destruct (on_consume_stored f msg id s Happ Hid Hne) as (Hs & Hnone & Hsome).
    rewrite Hs. simpl.
    split; [reflexivity|]. split; [apply lookup_insert_eq|].
    split; [|split; assumption].
    destruct (headers (properties msg)) as [|history parent] eqn:Hh.
    + destruct (Hnone eq_refl) as [_ He]. rewrite He. reflexivity.
    + destruct Hsome as [_ He]; [discriminate|]. rewrite He. reflexivity.
Qed.

(** C7: the call [publish] makes for a message carries its identifier and
    its parent identifier; in the delivery the broker makes of it they are
    the message identifier and the parent header.  Whatever the consuming
    facade emits for that delivery carries both unchanged, and a facade of
    the same application emits the application message for every non-empty
    identifier. *)
Theorem lineage_round_trip (publisher consumer : Facade) (message : Message)
    (alternativeExchange : option string) (tag : Z) (history : option (list XDeath))
    (s s' : State B) :
  channel s <> None ->
  exists op delivered,
    effects_of (publish B clock publisher message alternativeExchange s) = [Broker op] /\
    delivery_of op tag history = Some delivered /\
    messageId (properties delivered) = Some (getUUID message) /\
    parentMessage (headers (properties delivered)) = getParentMessage message /\
    (forall descriptor application_message,
       In (Emit descriptor application_message)
          (effects_of (on_consume B consumer delivered s')) ->
       jsonUUID application_message = getUUID message /\
       jsonParentMessage application_message = getParentMessage message) /\
    (appName consumer = appName publisher ->
     getUUID message <> "" ->
     effects_of (on_consume B consumer delivered s') =
       [Emit (getDescriptor message)
             (mkJSONMessage (getDescriptor message) (getSerializedContent message)
                (getUUID message) (Some (clock (tick s))) (getParentMessage message))]).
Proof.
  intros Hc.
  assert (Hpub : exists ex,
    effects_of (publish B clock publisher message alternativeExchange s) =
    [Broker (Publish ex (getDescriptor message) (getSerializedContent message)
               {| pubParentMessage := getParentMessage message;
                  pubPersistent := true;
                  pubMessageId := getUUID message;
                  pubTimestamp := clock (tick s);
                  pubAppId := appName publisher |})]).
  { unfold publish. rewrite bind_effects. unfold gets at 1 2 3. simpl.
    destruct (channel s) as [c|]; [|congruence].
    rewrite bind_effects. unfold now at 1 2 3. simpl.
    rewrite call_effects. eauto. }
  destruct Hpub as [ex Hpub]. rewrite Hpub.
  eexists. eexists. split; [reflexivity|]. split; [reflexivity|].
  split; [reflexivity|]. split; [reflexivity|].
  set (delivered := mkConsumeMessage _ _ _). split.
  - intros descriptor am Hin.
    destruct (same_app consumer delivered
              && truthy_string (messageId (properties delivered))) eqn:Hcase.
    + apply andb_true_iff in Hcase. destruct Hcase as [Happ Hid].
      apply same_app_spec in Happ. apply truthy_string_spec in Hid.
      destruct Hid as (id & Hid & Hne).
      rewrite (on_consume_tracked consumer delivered id s' Happ Hid Hne) in Hin
        by discriminate.
      destruct Hin as [Heq|[]]. inversion Heq; subst. simpl.
      simpl in Hid. inversion Hid. auto.
    + rewrite (on_consume_untracked consumer delivered s' Hcase) in Hin.
      destruct (on_channel_effects (Ack (Some delivered)) s') as [He|He];
        rewrite He in Hin; simpl in Hin; intuition discriminate.
  - intros Happ Hne.
    rewrite (on_consume_tracked consumer delivered (getUUID message) s');
      [reflexivity | simpl; congruence | reflexivity | exact Hne | discriminate].
Qed.

End Dispatcher.

(** ** Sequences of awaited calls *)

Lemma append_assoc (a b c : string) : (a +:+ b) +:+ c = a +:+ (b +:+ c).
Proof.
  induction a as [|ch a IH]; [reflexivity|].
  change (String ch ((a +:+ b) +:+ c) = String ch (a +:+ (b +:+ c))).
  f_equal. exact IH.
Qed.

Lemma append_length (a b : string) :
  String.length (a +:+ b) = (String.length a + String.length b)%nat.
Proof.
  induction a as [|ch a IH]; [reflexivity|].
  change (S (String.length (a +:+ b)) = S (String.length a + String.length b)).
  f_equal. exact IH.
Qed.

Lemma precedes_prefix (P Q : BrokerOp -> bool) (w1 w2 : list Effect) :
  w1 `prefix_of` w2 -> precedes P Q w2 -> precedes P Q w1.
Proof.
  intros Hpre H i j a b Hi Hj. apply H; eapply prefix_lookup_Some; eauto.
Qed.

Lemma precedes_weaken (P P' Q Q' : BrokerOp -> bool) (w : list Effect) :
  (forall op, P' op = true -> P op = true) ->
  (forall op, Q' op = true -> Q op = true) ->
  precedes P Q w -> precedes P' Q' w.
Proof. intros HP HQ H i j a b Hi Hj Ha Hb. eapply H; eauto. Qed.

Section Sequences.

Variable B : BrokerModel.

Lemma bind_ret_r (m : M B unit) (s : State B) : bind m (fun _ => ret tt) s = m s.
Proof.
  unfold bind, ret. destruct (m s) as [[[[]|e] s1] w1]; [|reflexivity].
  rewrite app_nil_r. reflexivity.
Qed.

Lemma bind_ext {A C} (m : M B A) (k1 k2 : A -> M B C) (s : State B) :
  (forall a s1, k1 a s1 = k2 a s1) -> bind m k1 s = bind m k2 s.
Proof.
  intros Hk. unfold bind. destruct (m s) as [[[a|e] s1] w1]; [|reflexivity].
  rewrite Hk. reflexivity.
Qed.

(** Awaited calls in sequence stop at the first that fails: the calls made
    are a prefix of the calls written. *)
Lemma for_of_calls_prefix {A} (g : A -> BrokerOp) (xs : list A) :
  forall s : State B,
    effects_of (for_of xs (fun x => on_channel B (g x)) s)
    `prefix_of` map (fun x => Broker (g x)) xs.
Proof.
  induction xs as [|x xs IH]; intros s; simpl.
  - apply prefix_nil.
  - rewrite bind_effects. destruct (channel s) as [c|] eqn:Hc.
    + rewrite on_channel_open by congruence. rewrite call_effects.
      simpl. apply prefix_cons.
      destruct (result_of (call B (g x) s)); [apply IH | apply prefix_nil].
    + rewrite on_channel_undefined by exact Hc. apply prefix_nil.
Qed.

(** With a broker that accepts them all, every call is made, in order. *)
Lemma for_of_calls_accepted {A} (g : A -> BrokerOp) (xs : list A) :
  accepts_all B ->
  forall s : State B,
    channel s <> None ->
    let r := for_of xs (fun x => on_channel B (g x)) s in
    result_of r = Ok tt /\
    effects_of r = map (fun x => Broker (g x)) xs /\
    channel (state_of r) = channel s /\
    connection (state_of r) = connection s /\
    messagePool (state_of r) = messagePool s /\
    tick (state_of r) = tick s.
Proof.
  intros Hacc. induction xs as [|x xs IH]; intros s Hc; simpl.
  - repeat split.
  - assert (Hx := eq_trans (on_channel_open B (g x) s Hc) (call_accepted B (g x) s Hacc)).
    rewrite (bind_ok B _ _ _ _ _ _ Hx).
    set (s1 := set_broker B _ s).
    destruct (IH s1 Hc) as (Hr & He & Hch & Hco & Hpo & Hti).
    unfold result_of, state_of, effects_of in *. simpl.
    rewrite Hr, He, Hch, Hco, Hpo, Hti. repeat split.
Qed.

Lemma setUp_calls (f : Facade) (s : State B) :
  setUp B f s = for_of (topology_calls f) (fun op => on_channel B op) s.
Proof.
  unfold setUp, topology_calls. simpl.
  do 6 (apply bind_ext; intros _ ?).
  symmetry. apply bind_ret_r.
Qed.

End Sequences.

(** ** The topology provisioner *)

Section Provisioner.

Variable B : BrokerModel.

Lemma topology_order (f : Facade) :
  precedes is_exchange_declaration is_queue_declaration (map Broker (topology_calls f)) /\
  precedes is_queue_declaration is_binding (map Broker (topology_calls f)).
Proof.
  split; intros i j a b Hi Hj Ha Hb;
    repeat (destruct i as [|i]; simpl in Hi; try discriminate Hi);
    inversion Hi; subst a; simpl in Ha; try discriminate Ha;
    repeat (destruct j as [|j]; simpl in Hj; try discriminate Hj);
    inversion Hj; subst b; simpl in Hb; try discriminate Hb; lia.
Qed.

Lemma setUp_prefix (f : Facade) (s : State B) :
  effects_of (setUp B f s) `prefix_of` map Broker (topology_calls f).
Proof. rewrite setUp_calls. apply (for_of_calls_prefix B (fun op => op)). Qed.

Lemma setUp_accepted (f : Facade) (s : State B) :
  accepts_all B ->
  channel s <> None ->
  result_of (setUp B f s) = Ok tt /\
  effects_of (setUp B f s) = map Broker (topology_calls f).
Proof.
  intros Hacc Hc. rewrite setUp_calls.
  destruct (for_of_calls_accepted B (fun op => op) (topology_calls f) Hacc s Hc)
    as (Hr & He & _).
  split; [exact Hr | exact He].
Qed.

(** C5: with a broker that accepts the declarations, [setUp] on the facade
    of a service returns normally after these calls: the broadcast exchange
    [mercury_bus] (fanout), the service exchange (direct) and the
    dead-letter exchange [<service>_dlx] (fanout) are declared; the primary
    queue [<service>_queue] is declared with the dead-letter exchange as
    its dead-letter target; the retry queue [<service>_queue_retry] is
    declared with the service exchange as its dead-letter target and a
    message time-to-live of [delayRetry * 1000] milliseconds, which is
    [delayRetry] seconds; the service exchange is bound to the broadcast
    exchange and the retry queue to the dead-letter exchange.  Everything
    is durable and not deleted automatically. *)
Theorem provisioned_topology (service app : string) (delay : Z) (s : State B) :
  accepts_all B ->
  channel s <> None ->
  let r := setUp B (new_facade service app delay) s in
  result_of r = Ok tt /\
  effects_of r =
    [ Broker (AssertExchange "mercury_bus" "fanout" true false);
      Broker (AssertExchange service "direct" true false);
      Broker (AssertExchange (service +:+ "_dlx") "fanout" true false);
      Broker (AssertQueue (service +:+ "_queue") true false
                (Some (service +:+ "_dlx")) None);
      Broker (AssertQueue (service +:+ "_queue_retry") true false
                (Some service) (Some (delay * 1000)));
      Broker (BindExchange service "mercury_bus" "");
      Broker (BindQueue (service +:+ "_queue_retry") (service +:+ "_dlx") "") ] /\
  ttl_seconds (delay * 1000) = delay.
Proof.
  intros Hacc Hc r. subst r.
  destruct (setUp_accepted (new_facade service app delay) s Hacc Hc) as [Hr He].
  split; [exact Hr|]. split.
  - rewrite He. unfold topology_calls, new_facade. simpl.
    rewrite append_assoc. reflexivity.
  - unfold ttl_seconds. apply Z.div_mul. discriminate.
Qed.

(** C6, as the code has it: in every run of [setUp], whatever the broker
    answers, each exchange declaration comes before each queue declaration
    and each queue declaration, that of the retry queue included, comes
    before each binding; in particular the service exchange is declared
    before the retry queue that names it as dead-letter target.  With a
    broker that accepts the calls all seven are made. *)
Theorem setup_order (f : Facade) (s : State B) :
  let w := effects_of (setUp B f s) in
  precedes is_exchange_declaration is_queue_declaration w /\
  precedes is_queue_declaration is_binding w /\
  precedes (declares_queue (retryQueue f)) is_binding w /\
  precedes (declares_exchange (exchange f)) (declares_queue (retryQueue f)) w /\
  (accepts_all B -> channel s <> None -> w = map Broker (topology_calls f)).
Proof.
  intros w. subst w.
  destruct (topology_order f) as [Hxq Hqb].
  pose proof (setUp_prefix f s) as Hpre.
  assert (Hx : forall n op, declares_exchange n op = true -> is_exchange_declaration op = true).
  { intros n []; simpl; congruence. }
  assert (Hq : forall n op, declares_queue n op = true -> is_queue_declaration op = true).
  { intros n []; simpl; congruence. }
  repeat split.
  - eapply precedes_prefix; eauto.
  - eapply precedes_prefix; eauto.
  - eapply precedes_prefix; [exact Hpre|].
    eapply precedes_weaken; [apply Hq | | exact Hqb]. auto.
  - eapply precedes_prefix; [exact Hpre|].
    eapply precedes_weaken; [apply Hx | apply Hq | exact Hxq].
  - intros Hacc Hc. apply setUp_accepted; assumption.
Qed.

End Provisioner.

(** ** Subscriptions *)

Section Subscriptions.

Variable B : BrokerModel.

Lemma subscribeAll_not_array (f : Facade) (v : JsValue) (s : State B) :
  isArray v = false -> subscribeAll B f v s = (Ok tt, s, []).
Proof. intros Hv. unfold subscribeAll. rewrite Hv. reflexivity. Qed.

(** C8: [subscribeAll] on an array binds the primary queue to the service
    exchange once per topic, in the order of the array: the calls made are
    always a prefix of these bindings (an awaited binding that fails ends
    the loop), and with a broker that accepts them they are all made and
    the call returns normally.  On the empty array, on [null], and on every
    other value that is not an array, it returns normally with no call at
    all and no change of state, even on a facade that is not connected. *)
Theorem subscribeAll_binds (f : Facade) (s : State B) :
  (forall topics,
     effects_of (subscribeAll B f (JsArray topics) s)
     `prefix_of` map (fun topic => Broker (BindQueue (queue f) (exchange f) topic)) topics) /\
  (forall topics,
     accepts_all B -> channel s <> None ->
     result_of (subscribeAll B f (JsArray topics) s) = Ok tt /\
     effects_of (subscribeAll B f (JsArray topics) s) =
       map (fun topic => Broker (BindQueue (queue f) (exchange f) topic)) topics) /\
  subscribeAll B f (JsArray []) s = (Ok tt, s, []) /\
  subscribeAll B f JsNull s = (Ok tt, s, []) /\
  (forall v, isArray v = false -> subscribeAll B f v s = (Ok tt, s, [])).
Proof.
  repeat split.
  - intros topics. unfold subscribeAll, subscribe. simpl.
    apply (for_of_calls_prefix B (fun topic => BindQueue (queue f) (exchange f) topic)).
  - unfold subscribeAll, subscribe. simpl.
    apply (for_of_calls_accepted B
             (fun topic => BindQueue (queue f) (exchange f) topic) topics); assumption.
  - unfold subscribeAll, subscribe. simpl.
    apply (for_of_calls_accepted B
             (fun topic => BindQueue (queue f) (exchange f) topic) topics); assumption.
  - intros v Hv. apply subscribeAll_not_array. exact Hv.
Qed.

End Subscriptions.

(** ** The lifecycle *)

Section Lifecycle.

Variable B : BrokerModel.

(** C9, as the code has it: [disconnect] on a facade whose connection
    handle is unset (never connected, or disconnected before) returns
    normally without a call.  Otherwise it closes the channel and, only
    when that succeeded, the connection, and only when that succeeded too
    clears the handle; an error of either close is thrown to the caller
    as it is, leaving the handle set (and so is the [TypeError] of reading
    [close] on a channel that was never created).  So the channel is closed
    before the connection in every run, and an error is thrown only when
    the handle was still set. *)
Theorem disconnect_teardown (s : State B) :
  let r := disconnect B s in
  (connection s = None -> r = (Ok tt, s, [])) /\
  (effects_of r = [] \/ effects_of r = [Broker CloseChannel] \/
   effects_of r = [Broker CloseChannel; Broker CloseConnection]) /\
  (connection s <> None -> channel s <> None ->
   let closed_channel := broker_step B (broker s) CloseChannel in
   let closed_connection := broker_step B closed_channel.1 CloseConnection in
   match closed_channel.2, closed_connection.2 with
   | Some e, _ =>
       r = (Throw e, set_broker B closed_channel.1 s, [Broker CloseChannel])
   | None, Some e =>
       r = (Throw e, set_broker B closed_connection.1 s,
            [Broker CloseChannel; Broker CloseConnection])
   | None, None =>
       r = (Ok tt, set_connection B None (set_broker B closed_connection.1 s),
            [Broker CloseChannel; Broker CloseConnection])
   end) /\
  (connection s <> None -> channel s = None ->
   r = (Throw (TypeError "channel"), s, [])) /\
  (forall e, result_of r = Throw e -> connection s <> None).
Proof.
  intros r. subst r. destruct s as [co ch po ti b].
  cbv [disconnect bind gets on_channel call modify throw ret truthy_object]. simpl.
  destruct co as [c|]; simpl.
  - destruct ch as [c'|]; simpl.
    + destruct (broker_step B b CloseChannel) as [b1 [e1|]]; simpl.
      * repeat split; auto; try congruence.
      * destruct (broker_step B b1 CloseConnection) as [b2 [e2|]]; simpl;
          repeat split; auto; congruence.
    + repeat split; auto; congruence.
  - repeat split; auto; congruence.
Qed.

End Lifecycle.

(** ** The message bus *)

Section Bus.

Variable B : BrokerModel.

Lemma bind_Forall {A C} (P : Effect -> Prop) (m : M B A) (k : A -> M B C) (s : State B) :
  Forall P (effects_of (m s)) ->
  (forall a s1, Forall P (effects_of (k a s1))) ->
  Forall P (effects_of (bind m k s)).
Proof.
  intros Hm Hk. rewrite bind_effects. apply Forall_app. split; [exact Hm|].
  destruct (result_of (m s)); [apply Hk | constructor].
Qed.

Lemma call_Forall (P : Effect -> Prop) (op : BrokerOp) (s : State B) :
  P (Broker op) -> Forall P (effects_of (call B op s)).
Proof. intros HP. rewrite call_effects. repeat constructor. exact HP. Qed.

Lemma on_channel_Forall (P : Effect -> Prop) (op : BrokerOp) (s : State B) :
  P (Broker op) -> Forall P (effects_of (on_channel B op s)).
Proof.
  intros HP. destruct (on_channel_effects B op s) as [He|He]; rewrite He;
    repeat constructor. exact HP.
Qed.

Lemma retry_queue_is_not_primary (service app : string) (delay : Z) :
  retryQueue (new_facade service app delay) <> queue (new_facade service app delay).
Proof.
  simpl. intros Heq. apply (f_equal String.length) in Heq.
  rewrite !append_length in Heq. simpl in Heq. lia.
Qed.

Lemma connect_binds_no_topic (service app : string) (delay : Z)
    (hostname username password : string) (s : State B) :
  Forall (fun e => ~ is_topic_binding (new_facade service app delay) e)
         (effects_of (connect B (new_facade service app delay)
                        hostname username password s)).
Proof.
  pose proof (retry_queue_is_not_primary service app delay) as Hne.
  set (f := new_facade service app delay) in *.
  assert (Hother : forall op,
            (forall q x t, op <> BindQueue q x t) -> ~ is_topic_binding f (Broker op)).
  { intros op Hop [topic Heq]. inversion Heq. eapply Hop; eauto. }
  unfold connect, setUp.
  repeat first
    [ apply on_channel_Forall
    | apply call_Forall
    | apply bind_Forall; [|intros ? ?] ];
    try (apply Hother; intros; discriminate);
    try (repeat constructor; intros [topic Heq]; discriminate).
  - intros [topic Heq]. inversion Heq. congruence.
  - match goal with |- context [match ?c with Some _ => _ | None => _ end] =>
      destruct c end; [|constructor].
    unfold call_detached.
    match goal with |- context [broker_step B ?b ?op] =>
      destruct (broker_step B b op) end.
    repeat constructor. intros [topic Heq]. discriminate.
Qed.

(** C10: [configure] hands to [subscribeAll] what the metadata holds, a
    [Map] (or [undefined] when nothing was registered), never an array.  For
    every such value [subscribeAll] returns normally without a call, so
    [configure] makes exactly the calls of [connect], ends in the state
    [connect] ends in, returns [true] when [connect] returns and throws
    what [connect] throws; none of its calls binds the primary queue to the
    service exchange under a topic, whatever bindings are registered. *)
Theorem configure_binds_no_topic (args : OptionsMap) (messageBindings : JsValue)
    (s : State B) :
  isArray messageBindings = false ->
  let f := new_facade (serviceName args) (optAppName args) (retryDelay args) in
  let c := connect B f (brokerHostName args) (brokerUserName args)
             (brokerPassword args) (set_channel B None (set_connection B None s)) in
  let r := configure B args messageBindings s in
  (forall entries, isArray (JsMap entries) = false) /\
  isArray JsUndefined = false /\
  (forall s1, subscribeAll B f messageBindings s1 = (Ok tt, s1, [])) /\
  effects_of r = effects_of c /\
  state_of r = state_of c /\
  result_of r = match result_of c with Ok _ => Ok true | Throw e => Throw e end /\
  Forall (fun e => ~ is_topic_binding f e) (effects_of r).
Proof.
  intros Hv f c r.
  assert (Hsub : forall s1, subscribeAll B f messageBindings s1 = (Ok tt, s1, [])).
  { intros s1. unfold subscribeAll. rewrite Hv. reflexivity. }
  assert (Hr : r = (match result_of c with Ok _ => Ok true | Throw e => Throw e end,
                    state_of c, effects_of c)).
  { subst r. unfold configure. fold f.
    rewrite (bind_ok B (modify B _) _ s _ tt [] eq_refl).
    fold c. unfold result_of, state_of, effects_of.
    destruct c as [[[[]|e] s1] w1] eqn:Hc; simpl.
    - rewrite (bind_ok B _ _ _ _ _ _ Hc).
      rewrite (bind_ok B _ _ _ _ _ _ (Hsub s1)).
      unfold ret, result_of, state_of, effects_of. simpl.
      rewrite app_nil_r. reflexivity.
    - rewrite (bind_throw B _ _ _ _ _ _ Hc). reflexivity. }
  split; [reflexivity|]. split; [reflexivity|]. split; [exact Hsub|].
  rewrite Hr. unfold result_of at 1, state_of at 1, effects_of at 1 3. simpl.
  repeat split. apply connect_binds_no_topic.
Qed.

End Bus.

(** ** The theorems at sample inputs *)

(** The fifty-ninth redelivery of [m1] fails under the default limit: it is
    rejected for one more retry. *)
Lemma error_outcome_decision_witness :
  messagePool (tracking (delivery "m1" (died 59))) !! "m1"
    = Some (delivery "m1" (died 59)) /\
  channel (tracking (delivery "m1" (died 59))) <> None /\
  history_readable (delivery "m1" (died 59)) = true /\
  effects_of (on_process_error obliging orders "m1" None
                (tracking (delivery "m1" (died 59))))
    = [Broker (Nack (delivery "m1" (died 59)) false false)].
Proof.
  assert (H1 : messagePool (tracking (delivery "m1" (died 59))) !! "m1"
               = Some (delivery "m1" (died 59))) by reflexivity.
  assert (H2 : channel (tracking (delivery "m1" (died 59))) <> None) by discriminate.
  assert (H3 : history_readable (delivery "m1" (died 59)) = true) by reflexivity.
  destruct (error_outcome_decision obliging orders "m1" None _ _ H1 H2 H3)
    as (_ & _ & _ & _ & _ & _ & Hretry & _).
  refine (conj H1 (conj H2 (conj H3 (Hretry eq_refl _)))).
  change (0 <= 59 <= 59). lia.
Defined.

(** A first failure with [maxRetries = -1]: the delivery is tracked and has
    no history, so its count is 0, which is not below the limit -1; the
    code rejects it for a retry all the same. *)
Lemma error_outcome_negative_limit :
  messagePool (tracking first_failure) !! "m1" = Some first_failure /\
  retry_limit (Some (-1)) = -1 /\
  redelivery_count first_failure = 0 /\
  effects_of (on_process_error obliging orders "m1" (Some (-1)) (tracking first_failure))
    = [Broker (Nack first_failure false false)] /\
  ~ (effects_of (on_process_error obliging orders "m1" (Some (-1)) (tracking first_failure))
       = [Broker (Nack first_failure false false)]
     <-> redelivery_count first_failure < retry_limit (Some (-1))).
Proof.
  do 4 (split; [reflexivity|]).
  intros [H _]. specialize (H eq_refl). vm_compute in H. discriminate.
Qed.

(** An outcome for [m9] while only [m1] is tracked. *)
Lemma unknown_delivery_outcome_witness :
  messagePool (tracking first_failure) !! "m9" = None /\
  result_of (on_process_error obliging orders "m9" None (tracking first_failure))
    = Throw (TypeError "properties") /\
  exists w,
    effects_of (on_process_success obliging wall_clock orders "m9" (Some [invoice])
                  (tracking first_failure))
    = Broker (Ack None) :: w.
Proof.
  assert (H1 : messagePool (tracking first_failure) !! "m9" = None) by reflexivity.
  assert (H2 : channel (tracking first_failure) <> None) by discriminate.
  destruct (unknown_delivery_outcome obliging orders "m9" None (Some [invoice])
              wall_clock _ H1 H2) as (Hthrow & _ & Hack).
  exact (conj H1 (conj Hthrow Hack)).
Defined.

(** A delivery of another application is acknowledged; a delivery of this
    application with the identifier [m1] is tracked and emitted; the same
    delivery without a headers table is tracked, and the callback throws
    without emitting. *)
Lemma consume_dispatch_witness :
  effects_of (on_consume obliging (new_facade "orders" "billing" 5) first_failure
                (tracking first_failure))
    = [Broker (Ack (Some first_failure))] /\
  messagePool (state_of (on_consume obliging orders first_failure
                           (consuming obliging tt ∅))) !! "m1"
    = Some first_failure /\
  effects_of (on_consume obliging orders first_failure (consuming obliging tt ∅))
    = [Emit "order.created"
            (mkJSONMessage "order.created" "{}" "m1" (Some 1700000000000)
               (Some "root"))] /\
  result_of (on_consume obliging orders headerless (consuming obliging tt ∅))
    = Throw (TypeError "parentMessage") /\
  effects_of (on_consume obliging orders headerless (consuming obliging tt ∅)) = [] /\
  messagePool (state_of (on_consume obliging orders headerless
                           (consuming obliging tt ∅))) !! "m1"
    = Some headerless.
Proof.
  assert (Hne : "m1" <> "") by discriminate.
  assert (Hc : channel (tracking first_failure) <> None) by discriminate.
  assert (Hother : appId (properties first_failure)
                   <> Some (appName (new_facade "orders" "billing" 5)))
    by discriminate.
  assert (Htable : headers (properties first_failure) <> NoHeaders) by discriminate.
  destruct (consume_dispatch obliging (new_facade "orders" "billing" 5) first_failure
              (tracking first_failure)) as [Hack _].
  destruct (consume_dispatch obliging orders first_failure (consuming obliging tt ∅))
    as [_ Hkept].
  destruct (Hkept "m1" eq_refl eq_refl Hne) as (_ & Hin & _ & Hemit & _).
  destruct (consume_dispatch obliging orders headerless (consuming obliging tt ∅))
    as [_ Hbare].
  destruct (Hbare "m1" eq_refl eq_refl Hne) as (_ & Hstuck & _ & _ & Hthrow).
  exact (conj (proj1 (Hack (or_introl Hother) Hc))
           (conj Hin
              (conj (proj2 (Hemit Htable))
                 (conj (proj1 (Hthrow eq_refl))
                    (conj (proj2 (Hthrow eq_refl)) Hstuck))))).
Defined.

(** A success outcome for [m1] with two resulting messages: one
    acknowledgment and two publish calls. *)
Lemma success_outcome_publishes_witness :
  accepts_all obliging /\
  messagePool (tracking first_failure) !! "m1" = Some first_failure /\
  channel (tracking first_failure) <> None /\
  effects_of (on_process_success obliging wall_clock orders "m1"
                (Some [invoice; shipment]) (tracking first_failure))
    = [ Broker (Ack (Some first_failure));
        Broker (broadcast_call orders invoice 1700000000000);
        Broker (broadcast_call orders shipment 1700000000001) ] /\
  length (publications_of
            (effects_of (on_process_success obliging wall_clock orders "m1"
                           (Some [invoice; shipment]) (tracking first_failure))))
    = 2%nat.
Proof.
  assert (H1 : messagePool (tracking first_failure) !! "m1" = Some first_failure)
    by reflexivity.
  assert (H2 : channel (tracking first_failure) <> None) by discriminate.
  destruct (success_outcome_publishes obliging wall_clock obliging_accepts_all orders "m1"
              (Some [invoice; shipment]) _ _ H1 H2)
    as (_ & _ & _ & Heff & _ & _ & Hlen & _).
  exact (conj obliging_accepts_all (conj H1 (conj H2 (conj Heff Hlen)))).
Defined.

(** The topology of the service [orders] with a delay of five seconds. *)
Lemma provisioned_topology_witness :
  accepts_all obliging /\
  channel (consuming obliging tt ∅) <> None /\
  effects_of (setUp obliging orders (consuming obliging tt ∅)) =
    [ Broker (AssertExchange "mercury_bus" "fanout" true false);
      Broker (AssertExchange "orders" "direct" true false);
      Broker (AssertExchange "orders_dlx" "fanout" true false);
      Broker (AssertQueue "orders_queue" true false (Some "orders_dlx") None);
      Broker (AssertQueue "orders_queue_retry" true false (Some "orders") (Some 5000));
      Broker (BindExchange "orders" "mercury_bus" "");
      Broker (BindQueue "orders_queue_retry" "orders_dlx" "") ].
Proof.
  assert (H2 : channel (consuming obliging tt ∅) <> None) by discriminate.
  refine (conj obliging_accepts_all (conj H2 _)).
  exact (proj1 (proj2 (provisioned_topology obliging "orders" "shop" 5 _
                         obliging_accepts_all H2))).
Defined.

(** All seven calls are made for [orders] on the obliging broker. *)
Lemma setup_order_witness :
  accepts_all obliging /\
  channel (consuming obliging tt ∅) <> None /\
  effects_of (setUp obliging orders (consuming obliging tt ∅))
    = map Broker (topology_calls orders).
Proof.
  assert (H2 : channel (consuming obliging tt ∅) <> None) by discriminate.
  refine (conj obliging_accepts_all (conj H2 _)).
  destruct (setup_order obliging orders (consuming obliging tt ∅))
    as (_ & _ & _ & _ & Hall).
  exact (Hall obliging_accepts_all H2).
Defined.

(** In the set-up of [orders] the binding of the service exchange is the
    sixth call and the declaration of the retry queue the fifth: the
    bindings do not come before the declaration of the retry queue. *)
Lemma setup_binds_after_retry_queue :
  effects_of (setUp obliging orders (consuming obliging tt ∅)) !! 4%nat
    = Some (Broker (AssertQueue "orders_queue_retry" true false (Some "orders")
                      (Some 5000))) /\
  effects_of (setUp obliging orders (consuming obliging tt ∅)) !! 5%nat
    = Some (Broker (BindExchange "orders" "mercury_bus" "")) /\
  ~ precedes is_binding (declares_queue (retryQueue orders))
      (effects_of (setUp obliging orders (consuming obliging tt ∅))).
Proof.
  do 2 (split; [reflexivity|]). intros H.
  assert (Hlt := H 5%nat 4%nat _ _ eq_refl eq_refl eq_refl eq_refl). lia.
Qed.

(** The invoice request published by [orders] comes back to [orders] with
    its identifier [m2] and its parent [m1]. *)
Lemma lineage_round_trip_witness :
  channel (consuming obliging tt ∅) <> None /\
  exists op delivered,
    effects_of (publish obliging wall_clock orders invoice None (consuming obliging tt ∅))
      = [Broker op] /\
    delivery_of op 7 None = Some delivered /\
    effects_of (on_consume obliging orders delivered (consuming obliging tt ∅))
      = [Emit "invoice.requested"
              (mkJSONMessage "invoice.requested" "{}" "m2" (Some 1700000000000)
                 (Some "m1"))].
Proof.
  assert (H : channel (consuming obliging tt ∅) <> None) by discriminate.
  destruct (lineage_round_trip obliging wall_clock orders orders invoice None 7 None
              (consuming obliging tt ∅) (consuming obliging tt ∅) H)
    as (op & delivered & Hpub & Hdel & _ & _ & _ & Hemit).
  refine (conj H (ex_intro _ op (ex_intro _ delivered (conj Hpub (conj Hdel _))))).
  apply Hemit; [reflexivity | discriminate].
Defined.

(** Two topics are bound in order; a [Map] of bindings binds nothing. *)
Lemma subscribeAll_binds_witness :
  accepts_all obliging /\
  channel (consuming obliging tt ∅) <> None /\
  effects_of (subscribeAll obliging orders (JsArray ["order.created"; "order.paid"])
                (consuming obliging tt ∅))
    = [ Broker (BindQueue "orders_queue" "orders" "order.created");
        Broker (BindQueue "orders_queue" "orders" "order.paid") ] /\
  isArray (JsMap [("order.created", "OrderHandler")]) = false /\
  subscribeAll obliging orders (JsMap [("order.created", "OrderHandler")])
    (consuming obliging tt ∅)
    = (Ok tt, consuming obliging tt ∅, []).
Proof.
  assert (H : channel (consuming obliging tt ∅) <> None) by discriminate.
  destruct (subscribeAll_binds obliging orders (consuming obliging tt ∅))
    as (_ & Hall & _ & _ & Hnot).
  exact (conj obliging_accepts_all
           (conj H (conj (proj2 (Hall ["order.created"; "order.paid"]
                                   obliging_accepts_all H))
                      (conj eq_refl
                         (Hnot (JsMap [("order.created", "OrderHandler")]) eq_refl))))).
Defined.

(** Both resources open: the channel is closed, then the connection, and
    the handle is cleared. *)
Lemma disconnect_teardown_witness :
  connection connected <> None /\
  channel connected <> None /\
  disconnect amqp connected
    = (Ok tt,
       set_connection amqp None
         (consuming amqp {| connection_open := false; channel_open := false |} ∅),
       [Broker CloseChannel; Broker CloseConnection]).
Proof.
  assert (H1 : connection connected <> None) by discriminate.
  assert (H2 : channel connected <> None) by discriminate.
  exact (conj H1 (conj H2
           (proj1 (proj2 (proj2 (disconnect_teardown amqp connected))) H1 H2))).
Defined.

(** The broker closed the channel, the facade still holds its connection:
    [disconnect] throws what closing the channel throws and never closes
    the connection.  Likewise after a [connect] that failed to open its
    channel: [disconnect] throws and the connection stays open. *)
Lemma disconnect_closed_channel_throws :
  connection channel_lost <> None /\
  channel_open (broker channel_lost) = false /\
  disconnect amqp channel_lost
    = (Throw (IllegalOperationError "Channel closed"), channel_lost,
       [Broker CloseChannel]) /\
  ~ result_of (disconnect amqp channel_lost) = Ok tt /\
  result_of (connect channel_refused orders "localhost" "guest" "guest"
               (unconnected channel_refused tt))
    = Throw (BrokerError 504) /\
  disconnect channel_refused
    (state_of (connect channel_refused orders "localhost" "guest" "guest"
                 (unconnected channel_refused tt)))
    = (Throw (TypeError "channel"),
       set_connection channel_refused (Some ConnectionHandle)
         (unconnected channel_refused tt),
       []).
Proof.
  split; [discriminate|]. do 2 (split; [reflexivity|]).
  split; [discriminate|]. split; reflexivity.
Qed.

(** With a binding registered for [order.created], [configure] makes the
    calls of [connect] and no topic binding. *)
Lemma configure_binds_no_topic_witness :
  isArray (JsMap [("order.created", "OrderHandler")]) = false /\
  effects_of (configure obliging shop_options (JsMap [("order.created", "OrderHandler")])
                (consuming obliging tt ∅))
    = effects_of (connect obliging orders "localhost" "guest" "guest"
                    (set_channel obliging None
                       (set_connection obliging None (consuming obliging tt ∅)))) /\
  Forall (fun e => ~ is_topic_binding orders e)
         (effects_of (configure obliging shop_options
                        (JsMap [("order.created", "OrderHandler")])
                        (consuming obliging tt ∅))).
Proof.
  destruct (configure_binds_no_topic obliging shop_options
              (JsMap [("order.created", "OrderHandler")]) (consuming obliging tt ∅) eq_refl)
    as (_ & _ & _ & Heff & _ & _ & Hall).
  exact (conj eq_refl (conj Heff Hall)).
Defined.

(** ** The publisher on every broker *)

Section PublisherRuns.

Variable B : BrokerModel.
Variable clock : nat -> Z.

Lemma on_channel_keeps (op : BrokerOp) (s : State B) :
  let s' := state_of (on_channel B op s) in
  connection s' = connection s /\ channel s' = channel s /\
  messagePool s' = messagePool s /\ tick s' = tick s.
Proof.
  assert (Hdec : channel s = None \/ channel s <> None)
    by (destruct (channel s); [right; discriminate | left; reflexivity]).
  destruct Hdec as [Hc|Hc].
  - rewrite on_channel_undefined by exact Hc. simpl. auto.
  - rewrite on_channel_open by exact Hc. apply call_keeps.
Qed.

Lemma publish_run (f : Facade) (message : Message) (alternativeExchange : option string)
    (s : State B) :
  channel s <> None ->
  exists r s1,
    publish B clock f message alternativeExchange s =
      (r, s1,
       [Broker (publish_call
                  (if truthy_string alternativeExchange
                   then default "" alternativeExchange else main_bus f)
                  f message (clock (tick s)))]) /\
    connection s1 = connection s /\ channel s1 = channel s /\
    messagePool s1 = messagePool s /\ tick s1 = S (tick s).
Proof.
  intros Hc. unfold publish, bind, gets, now, call. simpl.
  destruct (channel s) as [c|] eqn:Hcs; [|congruence].
  destruct (broker_step B (broker s) _) as [b [e|]]; simpl;
    eexists; eexists; repeat split; simpl; assumption.
Qed.

Lemma publish_undefined (f : Facade) (message : Message)
    (alternativeExchange : option string) (s : State B) :
  channel s = None ->
  publish B clock f message alternativeExchange s = (Throw (TypeError "channel"), s, []).
Proof. intros Hc. unfold publish, bind, gets. rewrite Hc. reflexivity. Qed.

(** The loop over the resulting messages on any broker: the publish calls
    made are a prefix of the calls written, and nothing but the clock and
    the broker changes. *)
Lemma for_of_publish_run (f : Facade) (messages : list Message) :
  forall s : State B,
    let r := for_of messages (fun message => publish B clock f message None) s in
    effects_of r `prefix_of`
      imap (fun k message => Broker (broadcast_call f message (clock (tick s + k)%nat)))
           messages /\
    connection (state_of r) = connection s /\
    channel (state_of r) = channel s /\
    messagePool (state_of r) = messagePool s.
Proof.
  induction messages as [|message messages IH]; intros s; simpl.
  - split; [apply prefix_nil | repeat split].
  - destruct (channel s) as [c|] eqn:Hc.
    + destruct (publish_run f message None s) as (r & s1 & Hp & Hco & Hch & Hpo & Hti);
        [congruence|].
      simpl in Hp. rewrite Nat.add_0_r.
      destruct r as [[]|e].
      * rewrite (bind_ok B _ _ _ _ _ _ Hp).
        destruct (IH s1) as (Hpre & Hco1 & Hch1 & Hpo1).
        unfold result_of, state_of, effects_of in *. simpl.
        rewrite Hco1, Hch1, Hpo1, Hco, Hch, Hpo, Hc. repeat split.
        apply prefix_cons.
        erewrite imap_ext; [exact Hpre|].
        intros k x _. simpl. rewrite Hti, Nat.add_succ_r. reflexivity.
      * rewrite (bind_throw B _ _ _ _ _ _ Hp).
        unfold state_of, effects_of. simpl. rewrite Hco, Hch, Hpo, Hc.
        repeat split. apply prefix_cons, prefix_nil.
    + rewrite (bind_throw B _ _ _ _ _ _ (publish_undefined f message None s Hc)).
      unfold state_of, effects_of. simpl. rewrite Hc.
      split; [apply prefix_nil | repeat split].
Qed.

(** X1: the listener of [PROCESS_SUCCESS] has no delivery to settle.  On
    every broker it leaves the handles and the in-flight table as they
    were and acknowledges and rejects nothing; its calls are publish calls
    on the broadcast exchange, a prefix of one per resulting message in
    order.  Without resulting messages it does nothing at all.  With a
    broker that accepts the calls it returns normally after publishing
    every message, the [k]-th with the [k]-th new reading of the clock. *)
Theorem broadcast_success_publishes (f : Facade)
    (resultingMessages : option (list Message)) (s : State B) :
  let r := on_broadcast_success B clock f resultingMessages s in
  let broadcasts :=
    imap (fun k message => Broker (broadcast_call f message (clock (tick s + k)%nat)))
         (default [] resultingMessages) in
  effects_of r `prefix_of` broadcasts /\
  acks_of (effects_of r) = [] /\
  nacks_of (effects_of r) = [] /\
  connection (state_of r) = connection s /\
  channel (state_of r) = channel s /\
  messagePool (state_of r) = messagePool s /\
  (resultingMessages = None \/ resultingMessages = Some [] -> r = (Ok tt, s, [])) /\
  (accepts_all B -> channel s <> None ->
   result_of r = Ok tt /\ effects_of r = broadcasts /\
   tick (state_of r) = (tick s + length (default [] resultingMessages))%nat).
Proof.
  intros r broadcasts.
  assert (Hr : r = for_of (default [] resultingMessages)
                     (fun message => publish B clock f message None) s).
  { subst r. unfold on_broadcast_success. destruct resultingMessages; reflexivity. }
  destruct (for_of_publish_run f (default [] resultingMessages) s)
    as (Hpre & Hco & Hch & Hpo).
  rewrite <- Hr in Hpre, Hco, Hch, Hpo. fold broadcasts in Hpre.
  assert (Hquiet : acks_of (effects_of r) = [] /\ nacks_of (effects_of r) = []).
  { destruct Hpre as [rest Hrest].
    destruct (broadcasts_read f (default [] resultingMessages)
                (fun k => clock (tick s + k)%nat)) as (Ha & Hn & _).
    simpl in Ha, Hn. fold broadcasts in Ha, Hn. rewrite Hrest in Ha, Hn.
    unfold acks_of, nacks_of in *. rewrite flat_map_app in Ha, Hn.
    apply app_eq_nil in Ha, Hn. tauto. }
  split; [exact Hpre|]. split; [tauto|]. split; [tauto|].
  split; [exact Hco|]. split; [exact Hch|]. split; [exact Hpo|]. split.
  - intros [-> | ->]; reflexivity.
  - intros Hacc Hc. rewrite Hr.
    destruct (for_of_publish_accepted B clock Hacc f (default [] resultingMessages) s Hc)
      as (Hres & Heff & Hti & _).
    auto.
Qed.

(** X2: [publish] on a connected facade makes one call, persistent,
    stamped with a new reading of the clock, the identifier and parent of
    the message and the identity of the application.  The exchange is the
    alternative one when that is a non-empty string, and the broadcast
    exchange when it is [null] or the empty string.  The call reads the
    clock once and leaves the handles and the in-flight table alone; what
    the broker throws is thrown to the caller. *)
Theorem publish_routes (f : Facade) (message : Message)
    (alternativeExchange : option string) (s : State B) :
  channel s <> None ->
  let r := publish B clock f message alternativeExchange s in
  (forall x, alternativeExchange = Some x -> x <> "" ->
     effects_of r = [Broker (publish_call x f message (clock (tick s)))]) /\
  (alternativeExchange = None \/ alternativeExchange = Some "" ->
     effects_of r = [Broker (publish_call (main_bus f) f message (clock (tick s)))]) /\
  length (publications_of (effects_of r)) = 1%nat /\
  (forall ex rk body o, In (ex, rk, body, o) (publications_of (effects_of r)) ->
     rk = getDescriptor message /\ body = getSerializedContent message /\
     pubPersistent o = true /\ pubMessageId o = getUUID message /\
     pubParentMessage o = getParentMessage message /\
     pubAppId o = appName f /\ pubTimestamp o = clock (tick s)) /\
  tick (state_of r) = S (tick s) /\
  connection (state_of r) = connection s /\
  channel (state_of r) = channel s /\
  messagePool (state_of r) = messagePool s /\
  result_of r =
    match (broker_step B (broker s)
             (publish_call (if truthy_string alternativeExchange
                            then default "" alternativeExchange else main_bus f)
                f message (clock (tick s)))).2 with
    | Some e => Throw e
    | None => Ok tt
    end.
Proof.
  intros Hc r.
  destruct (publish_run f message alternativeExchange s Hc)
    as (res & s1 & Hp & Hco & Hch & Hpo & Hti).
  assert (Hres : result_of r =
    match (broker_step B (broker s)
             (publish_call (if truthy_string alternativeExchange
                            then default "" alternativeExchange else main_bus f)
                f message (clock (tick s)))).2 with
    | Some e => Throw e
    | None => Ok tt
    end).
  { subst r. unfold publish, bind, gets, now, call, publish_call. simpl.
    destruct (channel s) as [c|]; [|congruence].
    destruct (broker_step B (broker s) _) as [b [e|]]; reflexivity. }
  fold r in Hp. rewrite Hp in *. unfold result_of, state_of, effects_of in *. simpl in *.
  repeat split; auto;
    try match goal with
        | H : _ \/ False |- _ => destruct H as [H|[]]; inversion H; reflexivity
        end.
  - intros x -> Hx. destruct x; [congruence | reflexivity].
  - intros [-> | ->]; reflexivity.
Qed.

(** X3: on a facade whose channel was never created, [publish],
    [subscribe] and [subscribeAll] on a non-empty array throw a
    [TypeError] before any call on the broker: nothing is published or
    bound, the clock is not read and the state is unchanged. *)
Theorem unconnected_facade_throws (f : Facade) (s : State B) :
  channel s = None ->
  (forall message alternativeExchange,
     publish B clock f message alternativeExchange s
     = (Throw (TypeError "channel"), s, [])) /\
  (forall topic, subscribe B f topic s = (Throw (TypeError "channel"), s, [])) /\
  (forall topic topics,
     subscribeAll B f (JsArray (topic :: topics)) s
     = (Throw (TypeError "channel"), s, [])).
Proof.
  intros Hc. repeat split.
  - intros message alt. apply publish_undefined. exact Hc.
  - intros topic. unfold subscribe. apply on_channel_undefined. exact Hc.
  - intros topic topics. unfold subscribeAll, subscribe. simpl.
    apply bind_throw. apply on_channel_undefined. exact Hc.
Qed.

End PublisherRuns.

(** ** Connecting on every broker *)

Section Connecting.

Variable B : BrokerModel.

(** Awaited calls in sequence on a facade with a channel: the handles, the
    table and the clock stay, and the loop returns normally only after the
    last call. *)
Lemma for_of_calls_run {A} (g : A -> BrokerOp) (xs : list A) :
  forall s : State B,
    let r := for_of xs (fun x => on_channel B (g x)) s in
    connection (state_of r) = connection s /\
    channel (state_of r) = channel s /\
    messagePool (state_of r) = messagePool s /\
    tick (state_of r) = tick s /\
    (result_of r = Ok tt -> effects_of r = map (fun x => Broker (g x)) xs).
Proof.
  induction xs as [|x xs IH]; intros s; simpl.
  - repeat split.
  - destruct (on_channel_keeps B (g x) s) as (Hco & Hch & Hpo & Hti).
    assert (Hdec : channel s = None \/ channel s <> None)
      by (destruct (channel s); [right; discriminate | left; reflexivity]).
    destruct Hdec as [Hc|Hc].
    + rewrite (bind_throw B _ _ _ _ _ _ (on_channel_undefined B (g x) s Hc)).
      unfold result_of, state_of. simpl. repeat split. discriminate.
    + pose proof (call_effects B (g x) s) as He.
      rewrite (on_channel_open B (g x) s Hc) in Hco, Hch, Hpo, Hti.
      unfold bind. rewrite (on_channel_open B (g x) s Hc).
      destruct (call B (g x) s) as [[[[]|e] s1] w1];
        unfold result_of, state_of, effects_of in *; simpl in *; subst w1.
      * destruct (IH s1) as (Hco1 & Hch1 & Hpo1 & Hti1 & Hall).
        unfold result_of, state_of, effects_of in *.
        destruct (for_of xs _ s1) as [[r2 s2] w2]. simpl in *.
        repeat split; try congruence.
        intros Hr. rewrite (Hall Hr). reflexivity.
      * repeat split; auto. discriminate.
Qed.

Lemma setUp_run (f : Facade) (s : State B) :
  let r := setUp B f s in
  connection (state_of r) = connection s /\
  channel (state_of r) = channel s /\
  messagePool (state_of r) = messagePool s /\
  tick (state_of r) = tick s /\
  (result_of r = Ok tt -> effects_of r = map Broker (topology_calls f)).
Proof.
  rewrite setUp_calls. apply (for_of_calls_run (fun op => op)).
Qed.

(** The steps of [connect] after [setUp] returned. *)
Lemma connect_tail (f : Facade) (s : State B) :
  channel s <> None ->
  exists b,
    bind (modify B (set_messagePool B ∅)) (fun _ =>
    bind (effect B (Listen MESSAGE_PROCESS_ERROR)) (fun _ =>
    bind (effect B (Listen MESSAGE_PROCESS_SUCCESS)) (fun _ =>
    bind (effect B (Listen PROCESS_SUCCESS)) (fun _ =>
    bind (gets B channel) (fun c =>
      match c with
      | None => throw (TypeError "channel")
      | Some _ => call_detached B (Consume (queue f))
      end))))) s
    = (Ok tt, set_broker B b (set_messagePool B ∅ s),
       [ Listen MESSAGE_PROCESS_ERROR; Listen MESSAGE_PROCESS_SUCCESS;
         Listen PROCESS_SUCCESS; Broker (Consume (queue f)) ]).
Proof.
  intros Hc. unfold bind, modify, effect, gets, call_detached. simpl.
  destruct (channel s) as [c|]; [|congruence]. simpl.
  destruct (broker_step B (broker s) (Consume (queue f))) as [b e]. simpl. eauto.
Qed.

(** What [connect] does, by the step that fails first. *)
Lemma connect_run (f : Facade) (hostname username password : string) (s : State B) :
  let r := connect B f hostname username password s in
  (exists e, result_of r = Throw e /\
             effects_of r = [Broker (Connect hostname username password)] /\
             connection (state_of r) = connection s /\
             channel (state_of r) = channel s /\
             messagePool (state_of r) = messagePool s) \/
  (exists e, result_of r = Throw e /\
             effects_of r = [Broker (Connect hostname username password);
                             Broker CreateChannel] /\
             connection (state_of r) = Some ConnectionHandle /\
             channel (state_of r) = channel s /\
             messagePool (state_of r) = messagePool s) \/
  (exists e w, result_of r = Throw e /\
             effects_of r = Broker (Connect hostname username password)
                            :: Broker CreateChannel :: w /\
             w `prefix_of` map Broker (topology_calls f) /\
             connection (state_of r) = Some ConnectionHandle /\
             channel (state_of r) = Some ChannelHandle /\
             messagePool (state_of r) = messagePool s) \/
  (result_of r = Ok tt /\
   effects_of r = connect_calls f hostname username password /\
   connection (state_of r) = Some ConnectionHandle /\
   channel (state_of r) = Some ChannelHandle /\
   messagePool (state_of r) = ∅ /\
   tick (state_of r) = tick s).
Proof.
  intros r. subst r. unfold connect.
  pose proof (call_effects B (Connect hostname username password) s) as He1.
  pose proof (call_keeps B (Connect hostname username password) s) as (Hco1 & Hch1 & Hpo1 & Hti1).
  destruct (call B (Connect hostname username password) s) as [[[[]|e1] s1] w1] eqn:H1;
    unfold state_of, effects_of in He1, Hco1, Hch1, Hpo1, Hti1; simpl in *; subst w1.
  2:{ left. rewrite (bind_throw B _ _ _ _ _ _ H1).
      unfold result_of, state_of, effects_of. simpl. eauto 10. }
  rewrite (bind_ok B _ _ _ _ _ _ H1).
  rewrite (bind_ok B (modify B _) _ _ _ tt [] eq_refl).
  set (s2 := set_connection B (Some ConnectionHandle) s1).
  pose proof (call_effects B CreateChannel s2) as He2.
  pose proof (call_keeps B CreateChannel s2) as (Hco2 & Hch2 & Hpo2 & Hti2).
  destruct (call B CreateChannel s2) as [[[[]|e2] s3] w3] eqn:H2;
    unfold state_of, effects_of in He2, Hco2, Hch2, Hpo2, Hti2; simpl in *; subst w3.
  2:{ right; left. rewrite (bind_throw B _ _ _ _ _ _ H2).
      unfold result_of, state_of, effects_of. simpl.
      exists e2. repeat split; congruence. }
  rewrite (bind_ok B _ _ _ _ _ _ H2).
  rewrite (bind_ok B (modify B _) _ _ _ tt [] eq_refl).
  set (s4 := set_channel B (Some ChannelHandle) s3).
  destruct (setUp_run f s4) as (Hco5 & Hch5 & Hpo5 & Hti5 & Hall).
  destruct (setUp B f s4) as [[[[]|e5] s5] w5] eqn:H5;
    unfold result_of, state_of, effects_of in Hco5, Hch5, Hpo5, Hti5, Hall; simpl in *.
  - right; right; right.
    rewrite (bind_ok B _ _ _ _ _ _ H5).
    destruct (connect_tail f s5) as [b Htail]; [rewrite Hch5; discriminate|].
    rewrite Htail. unfold result_of, state_of, effects_of. simpl.
    rewrite (Hall eq_refl). repeat split; congruence.
  - right; right; left.
    rewrite (bind_throw B _ _ _ _ _ _ H5).
    unfold result_of, state_of, effects_of. simpl.
    exists e5, w5. repeat split; try congruence.
    pose proof (setUp_prefix B f s4) as Hpre. rewrite H5 in Hpre. exact Hpre.
Qed.

Lemma connect_accepted (f : Facade) (hostname username password : string)
    (s : State B) :
  accepts_all B ->
  exists s',
    connect B f hostname username password s
    = (Ok tt, s', connect_calls f hostname username password) /\
    connection s' = Some ConnectionHandle /\
    channel s' = Some ChannelHandle /\
    messagePool s' = ∅ /\
    tick s' = tick s.
Proof.
  intros Hacc. unfold connect.
  rewrite (bind_ok B _ _ _ _ _ _ (call_accepted B _ s Hacc)).
  rewrite (bind_ok B (modify B _) _ _ _ tt [] eq_refl).
  set (s2 := set_connection B _ (set_broker B _ s)).
  rewrite (bind_ok B _ _ _ _ _ _ (call_accepted B _ s2 Hacc)).
  rewrite (bind_ok B (modify B _) _ _ _ tt [] eq_refl).
  set (s4 := set_channel B _ (set_broker B _ s2)).
  assert (Hc4 : channel s4 <> None) by discriminate.
  destruct (setUp_accepted B f s4 Hacc Hc4) as [Hr5 He5].
  destruct (setUp_run f s4) as (Hco5 & Hch5 & Hpo5 & Hti5 & _).
  destruct (setUp B f s4) as [[r5 s5] w5] eqn:H5.
  unfold result_of, state_of, effects_of in Hr5, He5, Hco5, Hch5, Hpo5, Hti5.
  simpl in *. subst r5 w5.
  rewrite (bind_ok B _ _ _ _ _ _ H5).
  destruct (connect_tail f s5) as [b Htail]; [rewrite Hch5; discriminate|].
  rewrite Htail. unfold result_of, state_of, effects_of. simpl.
  eexists. split; [reflexivity|]. simpl. repeat split; congruence.
Qed.

(** X4: with a broker that accepts the calls, [connect] from any state
    returns normally after connecting, opening the channel, the seven
    calls of [setUp], the registration of the three listeners and the
    start of the consumer on the primary queue, in this order; both
    handles are set, the in-flight table is new and empty and the clock
    was not read. *)
Theorem connect_provisions_then_consumes (f : Facade)
    (hostname username password : string) (s : State B) :
  accepts_all B ->
  let r := connect B f hostname username password s in
  result_of r = Ok tt /\
  effects_of r =
    [ Broker (Connect hostname username password); Broker CreateChannel;
      Broker (AssertExchange (main_bus f) "fanout" true false);
      Broker (AssertExchange (exchange f) "direct" true false);
      Broker (AssertExchange (deadLetterExchange f) "fanout" true false);
      Broker (AssertQueue (queue f) true false (Some (deadLetterExchange f)) None);
      Broker (AssertQueue (retryQueue f) true false (Some (exchange f))
                (Some (delayRetry f * 1000)));
      Broker (BindExchange (exchange f) (main_bus f) "");
      Broker (BindQueue (retryQueue f) (deadLetterExchange f) "");
      Listen MESSAGE_PROCESS_ERROR; Listen MESSAGE_PROCESS_SUCCESS;
      Listen PROCESS_SUCCESS; Broker (Consume (queue f)) ] /\
  connection (state_of r) = Some ConnectionHandle /\
  channel (state_of r) = Some ChannelHandle /\
  messagePool (state_of r) = ∅ /\
  tick (state_of r) = tick s.
Proof.
  intros Hacc r.
  destruct (connect_accepted f hostname username password s Hacc)
    as (s' & Hr & Hco & Hch & Hpo & Hti).
  fold r in Hr. rewrite Hr. unfold result_of, state_of, effects_of. simpl.
  repeat split; assumption.
Qed.

(** X5: on every broker, [connect] registers its listeners and starts the
    consumer only after the connection, the channel and the whole topology
    were accepted.  When it throws, its calls are a prefix of the
    provisioning calls, no listener is registered, no consumer is started
    and the in-flight table is the one it found; the connection handle is
    set as soon as the connection was accepted, so a failure of the
    channel or of the topology leaves a facade that holds a connection.
    When it returns normally every call was made. *)
Theorem connect_consumes_only_when_provisioned (f : Facade)
    (hostname username password : string) (s : State B) :
  let r := connect B f hostname username password s in
  effects_of r `prefix_of` connect_calls f hostname username password /\
  (forall e, result_of r = Throw e ->
     effects_of r `prefix_of` provisioning_calls f hostname username password /\
     Forall (fun x => starts_consumption x = false) (effects_of r) /\
     messagePool (state_of r) = messagePool s /\
     (In (Broker CreateChannel) (effects_of r) ->
      connection (state_of r) = Some ConnectionHandle) /\
     (~ In (Broker CreateChannel) (effects_of r) ->
      connection (state_of r) = connection s /\ channel (state_of r) = channel s)) /\
  (result_of r = Ok tt ->
     effects_of r = connect_calls f hostname username password /\
     connection (state_of r) = Some ConnectionHandle /\
     channel (state_of r) = Some ChannelHandle /\
     messagePool (state_of r) = ∅).
Proof.
  intros r.
  assert (Hquiet : forall w, w `prefix_of` provisioning_calls f hostname username password ->
                             Forall (fun x => starts_consumption x = false) w).
  { intros w [rest Hrest].
    assert (Hall : Forall (fun x => starts_consumption x = false)
                          (provisioning_calls f hostname username password))
      by (repeat constructor).
    rewrite Hrest in Hall. apply Forall_app in Hall. tauto. }
  assert (Hpc : forall w, w `prefix_of` provisioning_calls f hostname username password ->
                          w `prefix_of` connect_calls f hostname username password).
  { intros w Hw. unfold connect_calls. apply prefix_app_r. exact Hw. }
  destruct (connect_run f hostname username password s)
    as [(e & Hr & He & Hco & Hch & Hpo)
       |[(e & Hr & He & Hco & Hch & Hpo)
        |[(e & w & Hr & He & Hpre & Hco & Hch & Hpo)
         |(Hr & He & Hco & Hch & Hpo & Hti)]]];
    fold r in Hr, He, Hco, Hch, Hpo.
  - assert (Hp : effects_of r `prefix_of` provisioning_calls f hostname username password).
    { rewrite He. unfold provisioning_calls. apply prefix_cons, prefix_nil. }
    split; [auto|]. split; [|rewrite Hr; discriminate].
    intros e' _. split; [exact Hp|]. split; [auto|]. split; [exact Hpo|]. split.
    + rewrite He. intros [H|[]]. discriminate H.
    + intros _. split; assumption.
  - assert (Hp : effects_of r `prefix_of` provisioning_calls f hostname username password).
    { rewrite He. unfold provisioning_calls. do 2 apply prefix_cons. apply prefix_nil. }
    split; [auto|]. split; [|rewrite Hr; discriminate].
    intros e' _. split; [exact Hp|]. split; [auto|]. split; [exact Hpo|]. split.
    + intros _. exact Hco.
    + intros Hn. exfalso. apply Hn. rewrite He. right. left. reflexivity.
  - assert (Hp : effects_of r `prefix_of` provisioning_calls f hostname username password).
    { rewrite He. unfold provisioning_calls. do 2 apply prefix_cons. exact Hpre. }
    split; [auto|]. split; [|rewrite Hr; discriminate].
    intros e' _. split; [exact Hp|]. split; [auto|]. split; [exact Hpo|]. split.
    + intros _. exact Hco.
    + intros Hn. exfalso. apply Hn. rewrite He. right. left. reflexivity.
  - split; [rewrite He; reflexivity|]. split; [rewrite Hr; discriminate|].
    intros _. auto.
Qed.

End Connecting.

(** ** The outcome listeners on every broker *)

Section ResolverRuns.

Variable B : BrokerModel.
Variable clock : nat -> Z.

(** The error listener on any input. *)
Lemma on_process_error_run (f : Facade) (id : string) (maxRetries : option Z)
    (s : State B) :
  let r := on_process_error B f id maxRetries s in
  messagePool (state_of r) = delete id (messagePool s) /\
  connection (state_of r) = connection s /\
  channel (state_of r) = channel s /\
  tick (state_of r) = tick s /\
  (effects_of r = [] \/
   exists m, messagePool s !! id = Some m /\
             (effects_of r = [Broker (Nack m false false)] \/
              effects_of r = [Broker (Ack (Some m))])) /\
  (messagePool s !! id = None ->
   result_of r = Throw (TypeError "properties") /\ effects_of r = []).
Proof.
  intros r. subst r. unfold on_process_error.
  rewrite (bind_ok B (gets B _) _ s s _ [] eq_refl).
  rewrite (bind_ok B (modify B _) _ s _ tt [] eq_refl).
  set (s1 := set_messagePool B (delete id (messagePool s)) s).
  unfold result_of at 1, state_of at 1, effects_of at 1; simpl.
  destruct (messagePool s !! id) as [m|] eqn:Hm.
  2:{ unfold result_of, state_of, effects_of. simpl. repeat split; auto. }
  assert (Hon : forall op,
    (op = Nack m false false \/ op = Ack (Some m)) ->
    messagePool (state_of (on_channel B op s1)) = delete id (messagePool s) /\
    connection (state_of (on_channel B op s1)) = connection s /\
    channel (state_of (on_channel B op s1)) = channel s /\
    tick (state_of (on_channel B op s1)) = tick s /\
    (effects_of (on_channel B op s1) = [] \/
     exists m0, Some m = Some m0 /\
                (effects_of (on_channel B op s1) = [Broker (Nack m0 false false)] \/
                 effects_of (on_channel B op s1) = [Broker (Ack (Some m0))])) /\
    (Some m = None ->
     result_of (on_channel B op s1) = Throw (TypeError "properties") /\
     effects_of (on_channel B op s1) = [])).
  { intros op Hop.
    destruct (on_channel_keeps B op s1) as (Hco & Hch & Hpo & Hti).
    repeat split; try assumption; try discriminate.
    destruct (on_channel_effects B op s1) as [He|He]; [left; exact He|].
    right. exists m. split; [reflexivity|].
    destruct Hop as [-> | ->]; [left | right]; exact He. }
  destruct (headers (properties m)) as [|[[|death deaths]|] parent].
  - unfold result_of, state_of, effects_of. simpl. repeat split; auto. discriminate.
  - unfold result_of, state_of, effects_of. simpl. repeat split; auto. discriminate.
  - destruct (count death <? retry_limit maxRetries); apply Hon; auto.
  - apply Hon; auto.
Qed.

(** The success listener with a broker that accepts its calls, on any
    identifier. *)
Lemma on_process_success_accepted (f : Facade) (id : string)
    (resultingMessages : option (list Message)) (s : State B) :
  accepts_all B ->
  channel s <> None ->
  let r := on_process_success B clock f id resultingMessages s in
  result_of r = Ok tt /\
  effects_of r =
    Broker (Ack (messagePool s !! id)) ::
    imap (fun k message => Broker (broadcast_call f message (clock (tick s + k)%nat)))
         (default [] resultingMessages) /\
  messagePool (state_of r) = delete id (messagePool s) /\
  connection (state_of r) = connection s /\
  channel (state_of r) = channel s.
Proof.
  intros Hacc Hc r. subst r. unfold on_process_success.
  rewrite (bind_ok B (gets B _) _ s s _ [] eq_refl).
  rewrite (bind_ok B _ _ s _ tt [Broker (Ack (messagePool s !! id))]
             (eq_trans (on_channel_open B _ s Hc) (call_accepted B _ s Hacc))).
  set (s1 := set_broker B _ s).
  assert (Hloop :
    (if truthy_object resultingMessages
     then for_of (default [] resultingMessages)
            (fun message => publish B clock f message None)
     else ret tt)
    = for_of (default [] resultingMessages)
        (fun message => publish B clock f message None)).
  { destruct resultingMessages; reflexivity. }
  rewrite Hloop.
  destruct (for_of_publish_accepted B clock Hacc f (default [] resultingMessages) s1 Hc)
    as (Hres & Heff & _ & Hch & Hco & Hpool).
  unfold result_of, state_of, effects_of in Hres, Heff, Hch, Hco, Hpool.
  destruct (for_of (default [] resultingMessages) _ s1) as [[r2 s2] w2] eqn:Hfor.
  simpl in *. subst r2 w2.
  rewrite (bind_ok B _ _ _ _ _ _ Hfor).
  unfold modify, result_of, state_of, effects_of. simpl.
  rewrite app_nil_r, Hpool. repeat split; assumption.
Qed.

(** The success listener on any input. *)
Lemma on_process_success_run (f : Facade) (id : string)
    (resultingMessages : option (list Message)) (s : State B) :
  let r := on_process_success B clock f id resultingMessages s in
  connection (state_of r) = connection s /\
  channel (state_of r) = channel s /\
  messagePool (state_of r) =
    match result_of r with
    | Ok _ => delete id (messagePool s)
    | Throw _ => messagePool s
    end /\
  (channel s = None -> r = (Throw (TypeError "channel"), s, [])) /\
  (channel s <> None ->
   exists w,
     effects_of r = Broker (Ack (messagePool s !! id)) :: w /\
     w `prefix_of`
       imap (fun k message => Broker (broadcast_call f message (clock (tick s + k)%nat)))
            (default [] resultingMessages)).
Proof.
  intros r. subst r. unfold on_process_success.
  rewrite (bind_ok B (gets B _) _ s s _ [] eq_refl).
  unfold result_of at 1 2, state_of at 1 2 3 4, effects_of at 1; simpl.
  assert (Hloop :
    (if truthy_object resultingMessages
     then for_of (default [] resultingMessages)
            (fun message => publish B clock f message None)
     else ret tt)
    = for_of (default [] resultingMessages)
        (fun message => publish B clock f message None)).
  { destruct resultingMessages; reflexivity. }
  rewrite Hloop. clear Hloop.
  assert (Hdec : channel s = None \/ channel s <> None)
    by (destruct (channel s); [right; discriminate | left; reflexivity]).
  destruct Hdec as [Hc|Hc].
  - rewrite (bind_throw B _ _ _ _ _ _ (on_channel_undefined B _ s Hc)).
    unfold result_of, state_of, effects_of. simpl. repeat split. contradiction.
  - pose proof (call_effects B (Ack (messagePool s !! id)) s) as He.
    pose proof (call_keeps B (Ack (messagePool s !! id)) s) as (Hco & Hch & Hpo & Hti).
    pose proof (on_channel_open B (Ack (messagePool s !! id)) s Hc) as Hopen.
    destruct (call B (Ack (messagePool s !! id)) s) as [[[[]|e] s1] w1] eqn:Hcall;
      unfold state_of, effects_of in He, Hco, Hch, Hpo, Hti; simpl in *; subst w1.
    + rewrite (bind_ok B _ _ _ _ _ _ Hopen).
      destruct (for_of_publish_run B clock f (default [] resultingMessages) s1)
        as (Hpre & Hco2 & Hch2 & Hpo2).
      rewrite Hti in Hpre.
      destruct (for_of (default [] resultingMessages) _ s1) as [[[[]|e2] s2] w2] eqn:Hfor;
        unfold state_of, effects_of in Hpre, Hco2, Hch2, Hpo2; simpl in *.
      * rewrite (bind_ok B _ _ _ _ _ _ Hfor).
        unfold modify, result_of, state_of, effects_of. simpl.
        rewrite app_nil_r. repeat split; try congruence.
        intros _. eauto.
      * rewrite (bind_throw B _ _ _ _ _ _ Hfor).
        unfold result_of, state_of, effects_of. simpl.
        repeat split; try congruence. intros _. eauto.
    + rewrite (bind_throw B _ _ _ _ _ _ Hopen).
      unfold result_of, state_of, effects_of. simpl.
      repeat split; try congruence. intros _. exists []. split; [reflexivity|].
      apply prefix_nil.
Qed.

End ResolverRuns.

(** ** What the listeners keep and what they compose to *)

Section ListenerProperties.

Variable B : BrokerModel.
Variable clock : nat -> Z.

(** X6: on every input and every broker, the error listener removes its
    identifier from the in-flight table and touches no other entry, leaves
    the handles and the clock alone and publishes nothing.  It makes at
    most one call, and that call settles the delivery that was tracked
    under the identifier: [ack] of it, or [nack] of it with both flags
    [false].  For an identifier that is not tracked it makes no call. *)
Theorem error_outcome_touches_one_entry (f : Facade) (id : string)
    (maxRetries : option Z) (s : State B) :
  let r := on_process_error B f id maxRetries s in
  messagePool (state_of r) !! id = None /\
  (forall other, other <> id ->
     messagePool (state_of r) !! other = messagePool s !! other) /\
  connection (state_of r) = connection s /\
  channel (state_of r) = channel s /\
  tick (state_of r) = tick s /\
  publications_of (effects_of r) = [] /\
  (length (effects_of r) <= 1)%nat /\
  (forall m, In (Some m) (acks_of (effects_of r)) \/ In m (nacks_of (effects_of r)) ->
     messagePool s !! id = Some m) /\
  ~ In None (acks_of (effects_of r)) /\
  (forall m allUpTo requeue, In (Broker (Nack m allUpTo requeue)) (effects_of r) ->
     allUpTo = false /\ requeue = false).
Proof.
  intros r.
  destruct (on_process_error_run B f id maxRetries s) as (Hpo & Hco & Hch & Hti & He & _).
  fold r in Hpo, Hco, Hch, Hti, He.
  split; [rewrite Hpo; apply lookup_delete_eq|].
  split; [intros other Hne; rewrite Hpo; apply lookup_delete_ne; congruence|].
  split; [exact Hco|]. split; [exact Hch|]. split; [exact Hti|].
  destruct He as [He | (m & Hm & [He|He])]; rewrite He; simpl;
    repeat split; intros; simpl in *; try lia;
    intuition (try discriminate; try congruence).
Qed.

(** X7: a tracked delivery whose dead-letter history is an empty array is
    lost by the error listener: the entry is deleted, then reading the
    count of the missing first entry throws a [TypeError], and the delivery
    is neither acknowledged nor rejected. *)
Theorem error_outcome_empty_history (f : Facade) (id : string)
    (maxRetries : option Z) (s : State B) (m : ConsumeMessage) :
  messagePool s !! id = Some m ->
  x_death (headers (properties m)) = Some [] ->
  on_process_error B f id maxRetries s
  = (Throw (TypeError "count"), set_messagePool B (delete id (messagePool s)) s, []) /\
  messagePool (state_of (on_process_error B f id maxRetries s)) !! id = None.
Proof.
  intros Hm Hx.
  assert (Heq : on_process_error B f id maxRetries s
                = (Throw (TypeError "count"),
                   set_messagePool B (delete id (messagePool s)) s, [])).
  { unfold on_process_error, bind, gets, modify. rewrite Hm.
    destruct (headers (properties m)) as [|[[|death deaths]|] parent];
      simpl in Hx; try discriminate Hx. reflexivity. }
  split; [exact Heq|]. rewrite Heq. apply lookup_delete_eq.
Qed.

(** X8: on every input and every broker, the success listener leaves the
    handles alone and deletes the entry only when it returns normally:
    the table is unchanged whenever it throws.  So when the
    acknowledgment was made and a later publish throws, the delivery is
    acknowledged and still tracked.  On a facade with a channel its first
    call is [ack] of what the table holds and the rest are publish calls
    for a prefix of the resulting messages. *)
Theorem success_outcome_deletes_last (f : Facade) (id : string)
    (resultingMessages : option (list Message)) (s : State B) :
  let r := on_process_success B clock f id resultingMessages s in
  connection (state_of r) = connection s /\
  channel (state_of r) = channel s /\
  (result_of r = Ok tt -> messagePool (state_of r) = delete id (messagePool s)) /\
  (forall e, result_of r = Throw e -> messagePool (state_of r) = messagePool s) /\
  (forall e m, result_of r = Throw e -> messagePool s !! id = Some m ->
     channel s <> None ->
     In (Broker (Ack (Some m))) (effects_of r) /\
     messagePool (state_of r) !! id = Some m) /\
  (channel s <> None ->
   exists w,
     effects_of r = Broker (Ack (messagePool s !! id)) :: w /\
     w `prefix_of`
       imap (fun k message => Broker (broadcast_call f message (clock (tick s + k)%nat)))
            (default [] resultingMessages)).
Proof.
  intros r.
  destruct (on_process_success_run B clock f id resultingMessages s)
    as (Hco & Hch & Hpo & _ & Heff).
  fold r in Hco, Hch, Hpo, Heff.
  split; [exact Hco|]. split; [exact Hch|].
  split; [intros Hr; rewrite Hr in Hpo; exact Hpo|].
  split; [intros e Hr; rewrite Hr in Hpo; exact Hpo|].
  split; [|exact Heff].
  intros e m Hr Hm Hc. rewrite Hr in Hpo.
  destruct (Heff Hc) as (w & Hw & _).
  split; [rewrite Hw, Hm; left; reflexivity | rewrite Hpo; exact Hm].
Qed.

(** X9: on every delivery and every broker, the consume callback leaves
    the handles and the clock alone, rejects and publishes nothing and has
    at most one effect.  The only entry of the in-flight table it can
    change is the one under the identifier of the delivery. *)
Theorem consume_touches_one_entry (f : Facade) (msg : ConsumeMessage) (s : State B) :
  let r := on_consume B f msg s in
  connection (state_of r) = connection s /\
  channel (state_of r) = channel s /\
  tick (state_of r) = tick s /\
  nacks_of (effects_of r) = [] /\
  publications_of (effects_of r) = [] /\
  (length (effects_of r) <= 1)%nat /\
  (forall other, messageId (properties msg) <> Some other ->
     messagePool (state_of r) !! other = messagePool s !! other) /\
  (forall m, In m (acks_of (effects_of r)) -> m = Some msg).
Proof.
  intros r. subst r.
  destruct (same_app f msg && truthy_string (messageId (properties msg))) eqn:Hcase.
  - apply andb_true_iff in Hcase. destruct Hcase as [Happ Hid].
    apply same_app_spec in Happ. apply truthy_string_spec in Hid.
    destruct Hid as (id & Hid & Hne).
    destruct (on_consume_stored B f msg id s Happ Hid Hne) as (Hs & Hnone & Hsome).
    rewrite Hs.
    assert (He : effects_of (on_consume B f msg s) = [] \/
                 exists emitted, effects_of (on_consume B f msg s)
                                 = [Emit (routingKey (fields msg)) emitted]).
    { destruct (headers (properties msg)) as [|history parent] eqn:Hh.
      - left. apply Hnone. reflexivity.
      - right. eexists. apply Hsome. discriminate. }
    destruct He as [He | [emitted He]]; rewrite He; simpl;
      repeat split; intros; simpl in *; try lia; try contradiction;
      apply lookup_insert_ne; congruence.
  - rewrite (on_consume_untracked B f msg s Hcase).
    destruct (on_channel_keeps B (Ack (Some msg)) s) as (Hco & Hch & Hpo & Hti).
    split; [exact Hco|]. split; [exact Hch|]. split; [exact Hti|].
    destruct (on_channel_effects B (Ack (Some msg)) s) as [He|He]; rewrite He; simpl;
      repeat split; intros; simpl in *; try lia; try (rewrite Hpo; reflexivity);
      intuition congruence.
Qed.


(** X11: two deliveries of this application under one identifier: the
    second consume overwrites the entry of the first.  With a broker
    that accepts the calls, the success outcome for the identifier then
    acknowledges the second delivery only and empties the entry, so no
    later outcome can acknowledge the first. *)
Theorem duplicate_identifier_overwrites (f : Facade) (first second : ConsumeMessage)
    (id : string) (s : State B) :
  accepts_all B ->
  channel s <> None ->
  appId (properties first) = Some (appName f) ->
  appId (properties second) = Some (appName f) ->
  messageId (properties first) = Some id ->
  messageId (properties second) = Some id ->
  id <> "" ->
  let s2 := state_of (on_consume B f second (state_of (on_consume B f first s))) in
  messagePool s2 = <[id := second]> (messagePool s) /\
  acks_of (effects_of (on_consume B f first s)) = [] /\
  acks_of (effects_of (on_consume B f second (state_of (on_consume B f first s)))) = [] /\
  (forall resultingMessages,
     let r := on_process_success B clock f id resultingMessages s2 in
     acks_of (effects_of r) = [Some second] /\
     messagePool (state_of r) !! id = None).
Proof.
  intros Hacc Hc Happ1 Happ2 Hid1 Hid2 Hne s2.
  assert (Hs2 : s2 = set_messagePool B (<[id := second]> (messagePool s)) s).
  { subst s2.
    rewrite (proj1 (on_consume_stored B f first id s Happ1 Hid1 Hne)).
    rewrite (proj1 (on_consume_stored B f second id _ Happ2 Hid2 Hne)).
    unfold set_messagePool. simpl. rewrite insert_insert_eq. reflexivity. }
  split; [rewrite Hs2; reflexivity|].
  split; [apply (on_consume_stored_quiet B f first id s Happ1 Hid1 Hne)|].
  split; [apply (on_consume_stored_quiet B f second id _ Happ2 Hid2 Hne)|].
  intros rm r.
  assert (Hc2 : channel s2 <> None) by (rewrite Hs2; exact Hc).
  destruct (on_process_success_accepted B clock f id rm s2 Hacc Hc2) as (_ & He & Hpo & _).
  fold r in He, Hpo. split.
  - rewrite He. replace (messagePool s2 !! id) with (Some second)
      by (rewrite Hs2; simpl; symmetry; apply lookup_insert_eq).
    simpl.
    destruct (broadcasts_read f (default [] rm) (fun k => clock (tick s2 + k)%nat))
      as (Ha & _).
    simpl in Ha. unfold acks_of in *. rewrite Ha. reflexivity.
  - rewrite Hpo. apply lookup_delete_eq.
Qed.

(** X12: an outcome settles an identifier once.  After an error outcome,
    whatever it did, the identifier is no longer tracked: a second error
    outcome for it throws a [TypeError] without a call, and a second
    success outcome calls [ack(undefined)].  The same holds after a
    success outcome that returned normally. *)
Theorem second_outcome_finds_nothing (f : Facade) (id : string) (s : State B) :
  (forall maxRetries again,
     let s1 := state_of (on_process_error B f id maxRetries s) in
     messagePool s1 !! id = None /\
     result_of (on_process_error B f id again s1) = Throw (TypeError "properties") /\
     effects_of (on_process_error B f id again s1) = [] /\
     (channel s <> None ->
      forall resultingMessages,
        exists w, effects_of (on_process_success B clock f id resultingMessages s1)
                  = Broker (Ack None) :: w)) /\
  (forall resultingMessages again,
     let s1 := state_of (on_process_success B clock f id resultingMessages s) in
     result_of (on_process_success B clock f id resultingMessages s) = Ok tt ->
     messagePool s1 !! id = None /\
     result_of (on_process_error B f id again s1) = Throw (TypeError "properties") /\
     (channel s <> None ->
      forall more,
        exists w, effects_of (on_process_success B clock f id more s1)
                  = Broker (Ack None) :: w)).
Proof.
  assert (Hgone : forall s1 : State B,
    messagePool s1 !! id = None ->
    (forall again,
       result_of (on_process_error B f id again s1) = Throw (TypeError "properties") /\
       effects_of (on_process_error B f id again s1) = []) /\
    (channel s1 <> None ->
     forall rm, exists w, effects_of (on_process_success B clock f id rm s1)
                          = Broker (Ack None) :: w)).
  { intros s1 Hm. split.
    - intros again.
      destruct (on_process_error_run B f id again s1) as (_ & _ & _ & _ & _ & Hnone).
      exact (Hnone Hm).
    - intros Hc rm.
      destruct (on_process_success_run B clock f id rm s1) as (_ & _ & _ & _ & Heff).
      destruct (Heff Hc) as (w & Hw & _). rewrite Hm in Hw. eauto. }
  split.
  - intros maxRetries again s1.
    destruct (on_process_error_run B f id maxRetries s) as (Hpo & _ & Hch & _).
    fold s1 in Hpo, Hch.
    assert (Hm : messagePool s1 !! id = None) by (rewrite Hpo; apply lookup_delete_eq).
    destruct (Hgone s1 Hm) as [Herr Hsucc].
    split; [exact Hm|]. split; [apply Herr|]. split; [apply Herr|].
    intros Hc. apply Hsucc. rewrite Hch. exact Hc.
  - intros rm again s1 Hr.
    destruct (on_process_success_run B clock f id rm s) as (_ & Hch & Hpo & _).
    fold s1 in Hch, Hpo. rewrite Hr in Hpo.
    assert (Hm : messagePool s1 !! id = None) by (rewrite Hpo; apply lookup_delete_eq).
    destruct (Hgone s1 Hm) as [Herr Hsucc].
    split; [exact Hm|]. split; [apply Herr|].
    intros Hc. apply Hsucc. rewrite Hch. exact Hc.
Qed.

End ListenerProperties.

(** ** Names, subscriptions and the lifecycle *)

Section FacadeProperties.

Variable B : BrokerModel.

Lemma dead_letter_exchange_is_not_broadcast (service : string) :
  service +:+ "_dlx" <> "mercury_bus".
Proof.
  intros Heq.
  assert (Hlen : String.length service = 7%nat).
  { apply (f_equal String.length) in Heq. rewrite append_length in Heq.
    simpl in Heq. lia. }
  do 8 (destruct service as [|? service]; [simpl in Hlen; try discriminate Hlen|]).
  - cbv in Heq. congruence.
  - simpl in Hlen. lia.
Qed.

(** X13: the names the constructor derives.  For every service name the
    retry queue differs from the primary queue, the dead-letter exchange
    differs from the service exchange and from the broadcast exchange.
    The service exchange is the broadcast exchange exactly for the service
    named [mercury_bus], and exactly then does [setUp] declare
    [mercury_bus], just declared as a fanout exchange, again as a direct
    exchange and bind it to itself. *)
Theorem facade_names (service app : string) (delay : Z) (s : State B) :
  let f := new_facade service app delay in
  retryQueue f <> queue f /\
  deadLetterExchange f <> exchange f /\
  deadLetterExchange f <> main_bus f /\
  (exchange f = main_bus f <-> service = "mercury_bus") /\
  (accepts_all B -> channel s <> None ->
   (In (Broker (AssertExchange "mercury_bus" "direct" true false))
       (effects_of (setUp B f s)) <-> service = "mercury_bus") /\
   (In (Broker (BindExchange "mercury_bus" "mercury_bus" ""))
       (effects_of (setUp B f s)) <-> service = "mercury_bus")).
Proof.
  intros f.
  split; [apply retry_queue_is_not_primary|].
  split.
  { simpl. intros Heq. apply (f_equal String.length) in Heq.
    rewrite append_length in Heq. simpl in Heq. lia. }
  split; [apply dead_letter_exchange_is_not_broadcast|].
  split; [simpl; tauto|].
  intros Hacc Hc.
  destruct (setUp_accepted B f s Hacc Hc) as [_ He]. rewrite He.
  unfold topology_calls. simpl. split; split.
  - intros [H|[H|[H|[H|[H|[H|[H|[]]]]]]]]; try discriminate H.
    inversion H. reflexivity.
  - intros ->. right. left. reflexivity.
  - intros [H|[H|[H|[H|[H|[H|[H|[]]]]]]]]; try discriminate H.
    inversion H. reflexivity.
  - intros ->. do 5 right. left. reflexivity.
Qed.

(** X14: [subscribeAll] on an array returns normally only when every
    topic was bound, in order.  It never makes more calls than there are
    topics, it throws only on a non-empty array, and it leaves the
    handles, the in-flight table and the clock as they were. *)
Theorem subscribeAll_returns_when_all_bound (f : Facade) (topics : list string)
    (s : State B) :
  let r := subscribeAll B f (JsArray topics) s in
  (result_of r = Ok tt -> effects_of r = map (topic_binding f) topics) /\
  (length (effects_of r) <= length topics)%nat /\
  (forall e, result_of r = Throw e -> topics <> []) /\
  connection (state_of r) = connection s /\
  channel (state_of r) = channel s /\
  messagePool (state_of r) = messagePool s /\
  tick (state_of r) = tick s.
Proof.
  intros r. subst r. unfold subscribeAll, subscribe. simpl.
  destruct (for_of_calls_run B (fun topic => BindQueue (queue f) (exchange f) topic)
              topics s) as (Hco & Hch & Hpo & Hti & Hall).
  pose proof (for_of_calls_prefix B (fun topic => BindQueue (queue f) (exchange f) topic)
                topics s) as Hpre.
  split; [exact Hall|]. split.
  { apply prefix_length in Hpre. rewrite length_map in Hpre. exact Hpre. }
  split; [|auto].
  intros e Hr ->. simpl in Hr. discriminate Hr.
Qed.

(** X15: a [disconnect] that returned normally leaves the connection
    handle unset, so a second [disconnect] does nothing, on every broker.
    It does not clear the channel handle: a later [subscribe] or [publish]
    still calls the broker on the old channel instead of failing on a
    missing one. *)
Theorem disconnect_twice (s : State B) :
  result_of (disconnect B s) = Ok tt ->
  let s1 := state_of (disconnect B s) in
  connection s1 = None /\
  channel s1 = channel s /\
  messagePool s1 = messagePool s /\
  disconnect B s1 = (Ok tt, s1, []) /\
  (channel s <> None ->
   forall f topic, effects_of (subscribe B f topic s1) = [topic_binding f topic]).
Proof.
  intros Hr s1.
  assert (Hs1 : connection s1 = None /\ channel s1 = channel s /\
                messagePool s1 = messagePool s).
  { subst s1. revert Hr. destruct s as [co ch po ti b].
    cbv [disconnect bind gets on_channel call modify throw ret truthy_object
         result_of state_of]. simpl.
    destruct co as [c|]; simpl; [|auto].
    destruct ch as [c'|]; simpl; [|discriminate].
    destruct (broker_step B b CloseChannel) as [b1 [e1|]]; simpl; [discriminate|].
    destruct (broker_step B b1 CloseConnection) as [b2 [e2|]]; simpl;
      [discriminate | auto]. }
  destruct Hs1 as (Hco & Hch & Hpo).
  split; [exact Hco|]. split; [exact Hch|]. split; [exact Hpo|]. split.
  - unfold disconnect, bind, gets. rewrite Hco. reflexivity.
  - intros Hc f topic. unfold subscribe, topic_binding.
    rewrite on_channel_open by (rewrite Hch; exact Hc). apply call_effects.
Qed.

(** X16: were the metadata an array of topics, [configure] with a broker
    that accepts the calls would return [true] after the calls of
    [connect] followed by one binding per topic; the bindings come after
    the consumer was started. *)
Theorem configure_binds_array (args : OptionsMap) (topics : list string) (s : State B) :
  accepts_all B ->
  let f := new_facade (serviceName args) (optAppName args) (retryDelay args) in
  let r := configure B args (JsArray topics) s in
  result_of r = Ok true /\
  effects_of r =
    connect_calls f (brokerHostName args) (brokerUserName args) (brokerPassword args)
    ++ map (topic_binding f) topics.
Proof.
  intros Hacc f r. subst r. unfold configure. fold f.
  rewrite (bind_ok B (modify B _) _ s _ tt [] eq_refl).
  destruct (connect_accepted B f (brokerHostName args) (brokerUserName args)
              (brokerPassword args) (set_channel B None (set_connection B None s)) Hacc)
    as (s' & Hc & _ & Hch & _).
  rewrite (bind_ok B _ _ _ _ _ _ Hc).
  assert (Hc' : channel s' <> None) by (rewrite Hch; discriminate).
  destruct (for_of_calls_accepted B (fun topic => BindQueue (queue f) (exchange f) topic)
              topics Hacc s' Hc') as (Hr & He & _).
  assert (Hsub : subscribeAll B f (JsArray topics) s'
                 = (Ok tt, state_of (subscribeAll B f (JsArray topics) s'),
                    map (topic_binding f) topics)).
  { unfold subscribeAll, subscribe. simpl.
    unfold result_of, state_of, effects_of in *.
    destruct (for_of topics _ s') as [[r2 s2] w2]. simpl in *. subst. reflexivity. }
  rewrite (bind_ok B _ _ _ _ _ _ Hsub).
  unfold ret, result_of, state_of, effects_of. simpl.
  rewrite app_nil_r. split; reflexivity.
Qed.

End FacadeProperties.

(** ** The further properties at sample inputs *)

(** A scheduled handler produced two messages. *)
Lemma broadcast_success_publishes_witness :
  accepts_all obliging /\
  channel (consuming obliging tt ∅) <> None /\
  effects_of (on_broadcast_success obliging wall_clock orders (Some [invoice; shipment])
                (consuming obliging tt ∅))
    = [ Broker (broadcast_call orders invoice 1700000000000);
        Broker (broadcast_call orders shipment 1700000000001) ].
Proof.
  assert (H : channel (consuming obliging tt ∅) <> None) by discriminate.
  destruct (broadcast_success_publishes obliging wall_clock orders
              (Some [invoice; shipment]) (consuming obliging tt ∅))
    as (_ & _ & _ & _ & _ & _ & _ & Hall).
  exact (conj obliging_accepts_all
           (conj H (proj1 (proj2 (Hall obliging_accepts_all H))))).
Defined.

(** The invoice request goes to the exchange [audit] when asked to. *)
Lemma publish_routes_witness :
  channel (consuming obliging tt ∅) <> None /\
  effects_of (publish obliging wall_clock orders invoice (Some "audit")
                (consuming obliging tt ∅))
    = [Broker (publish_call "audit" orders invoice 1700000000000)].
Proof.
  assert (H : channel (consuming obliging tt ∅) <> None) by discriminate.
  destruct (publish_routes obliging wall_clock orders invoice (Some "audit")
              (consuming obliging tt ∅) H) as (Halt & _).
  refine (conj H (Halt "audit" eq_refl _)). discriminate.
Defined.

(** Publishing before [connect]. *)
Lemma unconnected_facade_throws_witness :
  channel (unconnected obliging tt) = None /\
  publish obliging wall_clock orders invoice None (unconnected obliging tt)
    = (Throw (TypeError "channel"), unconnected obliging tt, []).
Proof.
  assert (H : channel (unconnected obliging tt) = None) by reflexivity.
  exact (conj H (proj1 (unconnected_facade_throws obliging wall_clock orders
                          (unconnected obliging tt) H) invoice None)).
Defined.

(** [orders] connects to an obliging broker. *)
Lemma connect_provisions_then_consumes_witness :
  accepts_all obliging /\
  effects_of (connect obliging orders "localhost" "guest" "guest"
                (unconnected obliging tt))
    = connect_calls orders "localhost" "guest" "guest" /\
  messagePool (state_of (connect obliging orders "localhost" "guest" "guest"
                           (unconnected obliging tt))) = ∅.
Proof.
  destruct (connect_provisions_then_consumes obliging orders "localhost" "guest" "guest"
              (unconnected obliging tt) obliging_accepts_all)
    as (_ & He & _ & _ & Hpo & _).
  exact (conj obliging_accepts_all (conj He Hpo)).
Defined.

(** The broker refuses the channel: [connect] throws, nothing listens or
    consumes, and the facade holds its connection. *)
Lemma connect_consumes_only_when_provisioned_witness :
  result_of (connect channel_refused orders "localhost" "guest" "guest"
               (unconnected channel_refused tt))
    = Throw (BrokerError 504) /\
  Forall (fun x => starts_consumption x = false)
         (effects_of (connect channel_refused orders "localhost" "guest" "guest"
                        (unconnected channel_refused tt))) /\
  connection (state_of (connect channel_refused orders "localhost" "guest" "guest"
                          (unconnected channel_refused tt)))
    = Some ConnectionHandle.
Proof.
  destruct (connect_consumes_only_when_provisioned channel_refused orders
              "localhost" "guest" "guest" (unconnected channel_refused tt))
    as (_ & Hthrow & _).
  destruct (Hthrow (BrokerError 504) eq_refl) as (_ & Hquiet & _ & Hheld & _).
  refine (conj eq_refl (conj Hquiet (Hheld _))).
  right. left. reflexivity.
Defined.

(** A delivery whose history is an empty array. *)
Lemma error_outcome_empty_history_witness :
  messagePool (tracking (delivery "m1" (Some []))) !! "m1"
    = Some (delivery "m1" (Some [])) /\
  x_death (headers (properties (delivery "m1" (Some [])))) = Some [] /\
  result_of (on_process_error obliging orders "m1" None
               (tracking (delivery "m1" (Some []))))
    = Throw (TypeError "count") /\
  messagePool (state_of (on_process_error obliging orders "m1" None
                           (tracking (delivery "m1" (Some []))))) !! "m1" = None.
Proof.
  assert (H1 : messagePool (tracking (delivery "m1" (Some []))) !! "m1"
               = Some (delivery "m1" (Some []))) by reflexivity.
  assert (H2 : x_death (headers (properties (delivery "m1" (Some [])))) = Some [])
    by reflexivity.
  destruct (error_outcome_empty_history obliging orders "m1" None _ _ H1 H2)
    as [Heq Hgone].
  exact (conj H1 (conj H2 (conj (f_equal (fun r => result_of r) Heq) Hgone))).
Defined.

(** The broker refuses the publish: [m1] is acknowledged and still in the
    table. *)
Lemma success_outcome_deletes_last_witness :
  result_of (on_process_success publish_refused wall_clock orders "m1" (Some [invoice])
               (consuming publish_refused tt {[ "m1" := first_failure ]}))
    = Throw (BrokerError 311) /\
  In (Broker (Ack (Some first_failure)))
     (effects_of (on_process_success publish_refused wall_clock orders "m1"
                    (Some [invoice])
                    (consuming publish_refused tt {[ "m1" := first_failure ]}))) /\
  messagePool (state_of (on_process_success publish_refused wall_clock orders "m1"
                           (Some [invoice])
                           (consuming publish_refused tt {[ "m1" := first_failure ]})))
    !! "m1" = Some first_failure.
Proof.
  destruct (success_outcome_deletes_last publish_refused wall_clock orders "m1"
              (Some [invoice]) (consuming publish_refused tt {[ "m1" := first_failure ]}))
    as (_ & _ & _ & _ & Hkept & _).
  assert (Hc : channel (consuming publish_refused tt {[ "m1" := first_failure ]}) <> None)
    by discriminate.
  exact (conj eq_refl (Hkept (BrokerError 311) first_failure eq_refl eq_refl Hc)).
Defined.


(** [m1] is delivered twice before its outcome: only the second delivery
    is acknowledged. *)
Lemma duplicate_identifier_overwrites_witness :
  accepts_all obliging /\
  first_failure <> redelivery /\
  acks_of (effects_of
             (on_process_success obliging wall_clock orders "m1" None
                (state_of (on_consume obliging orders redelivery
                             (state_of (on_consume obliging orders first_failure
                                          (consuming obliging tt ∅)))))))
    = [Some redelivery].
Proof.
  assert (Hc : channel (consuming obliging tt ∅) <> None) by discriminate.
  assert (Hne : "m1" <> "") by discriminate.
  assert (Hd : first_failure <> redelivery) by discriminate.
  destruct (duplicate_identifier_overwrites obliging wall_clock orders first_failure
              redelivery "m1" (consuming obliging tt ∅) obliging_accepts_all Hc
              eq_refl eq_refl eq_refl eq_refl Hne)
    as (_ & _ & _ & Hsuccess).
  exact (conj obliging_accepts_all (conj Hd (proj1 (Hsuccess None)))).
Defined.

(** A service that carries the name of the broadcast exchange. *)
Lemma facade_names_witness :
  accepts_all obliging /\
  channel (consuming obliging tt ∅) <> None /\
  In (Broker (AssertExchange "mercury_bus" "direct" true false))
     (effects_of (setUp obliging (new_facade "mercury_bus" "shop" 5)
                    (consuming obliging tt ∅))) /\
  In (Broker (AssertExchange "mercury_bus" "fanout" true false))
     (effects_of (setUp obliging (new_facade "mercury_bus" "shop" 5)
                    (consuming obliging tt ∅))).
Proof.
  assert (Hc : channel (consuming obliging tt ∅) <> None) by discriminate.
  destruct (facade_names obliging "mercury_bus" "shop" 5 (consuming obliging tt ∅))
    as (_ & _ & _ & _ & Hset).
  destruct (Hset obliging_accepts_all Hc) as [Hdirect _].
  refine (conj obliging_accepts_all (conj Hc (conj (proj2 Hdirect eq_refl) _))).
  left. reflexivity.
Defined.

(** Two topics bound on an obliging broker. *)
Lemma subscribeAll_returns_when_all_bound_witness :
  result_of (subscribeAll obliging orders (JsArray ["order.created"; "order.paid"])
               (consuming obliging tt ∅)) = Ok tt /\
  effects_of (subscribeAll obliging orders (JsArray ["order.created"; "order.paid"])
                (consuming obliging tt ∅))
    = [topic_binding orders "order.created"; topic_binding orders "order.paid"].
Proof.
  destruct (subscribeAll_returns_when_all_bound obliging orders
              ["order.created"; "order.paid"] (consuming obliging tt ∅))
    as (Hall & _).
  exact (conj eq_refl (Hall eq_refl)).
Defined.

(** Disconnecting twice from the broker of amqplib. *)
Lemma disconnect_twice_witness :
  result_of (disconnect amqp connected) = Ok tt /\
  disconnect amqp (state_of (disconnect amqp connected))
    = (Ok tt, state_of (disconnect amqp connected), []) /\
  channel (state_of (disconnect amqp connected)) = Some ChannelHandle.
Proof.
  assert (H : result_of (disconnect amqp connected) = Ok tt) by reflexivity.
  destruct (disconnect_twice amqp connected H) as (_ & Hch & _ & Hagain & _).
  exact (conj H (conj Hagain Hch)).
Defined.

(** An array of one topic as metadata. *)
Lemma configure_binds_array_witness :
  accepts_all obliging /\
  effects_of (configure obliging shop_options (JsArray ["order.created"])
                (unconnected obliging tt))
    = connect_calls orders "localhost" "guest" "guest"
      ++ [topic_binding orders "order.created"].
Proof.
  exact (conj obliging_accepts_all
           (proj2 (configure_binds_array obliging shop_options ["order.created"]
                     (unconnected obliging tt) obliging_accepts_all))).
Defined.
